(** * Server-update builders of orange3-bioinformatics

    A shallow embedding of the table builders under [server_update/]:
    [homolog_genes.py] (class [HomologGenes]), [marker_genes.py] (classes
    [PanglaoDB] and [CellMarkerDB]), [ncbi_gene_info.py] (class
    [GeneInfo]) and the packaging of [utils.py] (class [RemoteResource]).

    Python values are modelled as follows.
    - [str] is [string]; the feeds are taken after [decode], and the text
      is one-byte characters (the white space and digits outside ASCII that
      [str.strip] and [int] also accept are not modelled).
    - [list] and [tuple] are [list]; [seq[i]] is [Py.index], which raises
      [IndexError] out of range.
    - [dict] is [gmap], [set] is [gset]; [None] is [None] of [option].
    - an uncaught exception is the [Raise] outcome of [Py.result]. *)

From Stdlib Require Import Ascii String.
From stdpp Require Import gmap strings list fin_maps.

(* [set_solver] clears hypotheses by name, some of which are not there. *)
#[local] Set Warnings "-clear-no-such-hyp".

(** ** Python primitives used by the builders *)

Module Py.

Inductive exn : Set := IndexError.

Inductive result (A : Type) : Type :=
| Ok (a : A)
| Raise (e : exn).
Arguments Ok {A} a.
Arguments Raise {A} e.

Definition bind {A B : Type} (c : result A) (k : A -> result B) : result B :=
  match c with
  | Ok a => k a
  | Raise e => Raise e
  end.

(** [seq[i]] for a non-negative literal index [i]. *)
Definition index {A : Type} (seq : list A) (i : nat) : result A :=
  match seq !! i with
  | Some x => Ok x
  | None => Raise IndexError
  end.

(** A [for] loop whose body may raise: the exception leaves the loop. *)
Fixpoint for_each {S A : Type} (body : S -> A -> result S) (items : list A) (st : S)
  : result S :=
  match items with
  | [] => Ok st
  | item :: rest =>
      match body st item with
      | Ok st' => for_each body rest st'
      | Raise e => Raise e
      end
  end.

Definition TAB : string := String (ascii_of_nat 9) EmptyString.
Definition LF : string := String (ascii_of_nat 10) EmptyString.

(** [str.isspace] on one-byte characters: TAB, LF, VT, FF, CR, the four
    separators FS, GS, RS, US, and the space. *)
Definition isspace (c : ascii) : bool :=
  let n := nat_of_ascii c in
  ((9 <=? n) && (n <=? 13)) || ((28 <=? n) && (n <=? 32)).

Fixpoint lstrip (s : string) : string :=
  match s with
  | EmptyString => EmptyString
  | String c s' => if isspace c then lstrip s' else s
  end.

Fixpoint rstrip (s : string) : string :=
  match s with
  | EmptyString => EmptyString
  | String c s' =>
      match rstrip s' with
      | EmptyString => if isspace c then EmptyString else String c EmptyString
      | r => String c r
      end
  end.

(** [s.strip()] *)
Definition strip (s : string) : string := rstrip (lstrip s).

(** [s.split(sep)] for a non-empty separator: the occurrences of [sep]
    are found from the left and do not overlap. [skip] counts the
    characters of a separator just found that are still to be dropped. *)
Fixpoint split_from (sep : string) (skip : nat) (s : string) : list string :=
  match s with
  | EmptyString => [EmptyString]
  | String c s' =>
      match skip with
      | S k => split_from sep k s'
      | O =>
          if String.prefix sep s
          then EmptyString :: split_from sep (String.length sep - 1) s'
          else match split_from sep 0 s' with
               | field :: fields => String c field :: fields
               | [] => [String c EmptyString]
               end
      end
  end.

Definition split (sep s : string) : list string := split_from sep 0 s.

(** Iterating over a binary file: the lines, each with its LF. *)
Fixpoint readlines (s : string) : list string :=
  match s with
  | EmptyString => []
  | String c s' =>
      if Ascii.eqb c (ascii_of_nat 10) then String c EmptyString :: readlines s'
      else match readlines s' with
           | line :: lines => String c line :: lines
           | [] => [String c EmptyString]
           end
  end.

(** [s.replace(c, '')] for a one-character [c]. *)
Fixpoint remove_char (c : ascii) (s : string) : string :=
  match s with
  | EmptyString => EmptyString
  | String d s' => if Ascii.eqb d c then remove_char c s' else String d (remove_char c s')
  end.

Definition isdigit (c : ascii) : bool :=
  let n := nat_of_ascii c in (48 <=? n) && (n <=? 57).

(** Digits with single underscores between them, as [int] reads them;
    [after_digit] tells whether the previous character was a digit. *)
Fixpoint digits (after_digit : bool) (s : string) : bool :=
  match s with
  | EmptyString => after_digit
  | String c s' =>
      if isdigit c then digits true s'
      else if Ascii.eqb c "_" then after_digit && digits false s'
      else false
  end.

(** The white space that [int] skips before and after the number: TAB,
    LF, VT, FF, CR and the space. The separators FS, GS, RS, US, which
    [str.strip] drops, are no white space for [int]. *)
Definition int_space (c : ascii) : bool :=
  let n := nat_of_ascii c in ((9 <=? n) && (n <=? 13)) || (n =? 32).

Fixpoint int_skip_left (s : string) : string :=
  match s with
  | EmptyString => EmptyString
  | String c s' => if int_space c then int_skip_left s' else s
  end.

Fixpoint int_skip_right (s : string) : string :=
  match s with
  | EmptyString => EmptyString
  | String c s' =>
      match int_skip_right s' with
      | EmptyString => if int_space c then EmptyString else String c EmptyString
      | r => String c r
      end
  end.

(** Whether [int(s)] returns ([true]) or raises [ValueError] ([false]):
    white space around, an optional sign, then the digits. The bound on
    the number of digits that later Python versions put on [int] is not
    modelled. *)
Definition int_parses (s : string) : bool :=
  match int_skip_right (int_skip_left s) with
  | String c s' =>
      if Ascii.eqb c "+" || Ascii.eqb c "-" then digits false s'
      else digits false (String c s')
  | EmptyString => false
  end.

End Py.

Import Py.

Notation "'let?' x ':=' c 'in' k" := (Py.bind c (fun x => k))
  (at level 10, x name, c at level 100, k at level 200).

(** ** [server_update/homolog_genes.py] *)

Module HomologGenes.

Definition taxonomy_col : nat := 0.
Definition current_id_col : nat := 1.
Definition discontinued_id_col : nat := 2.

(** The body of [for line in file] in [load_gene_history]. The value
    [info[current_id_col]] is evaluated before the key. *)
Definition history_line (gene_history : gmap (string * string) string) (line : string)
  : result (gmap (string * string) string) :=
  let info := split TAB (strip line) in
  let? current := index info current_id_col in
  let? tax := index info taxonomy_col in
  let? discontinued := index info discontinued_id_col in
  Ok (<[(tax, discontinued) := current]> gene_history).

Fixpoint history_loop (lines : list string) (gene_history : gmap (string * string) string)
  : result (gmap (string * string) string) :=
  match lines with
  | [] => Ok gene_history
  | line :: rest =>
      let? gene_history' := history_line gene_history line in
      history_loop rest gene_history'
  end.

(** [load_gene_history]; [response] is the unzipped [gene_history.gz].
    The first line is the header and is skipped. *)
Definition load_gene_history (response : string) : result (gmap (string * string) string) :=
  history_loop (tail (readlines response)) ∅.

(** [handle_response] *)
Definition handle_response (response : string) : string := strip response.

Definition group_id : nat := 0.
Definition tax_id : nat := 1.
Definition entrez_id : nat := 2.

(** The two things [prepare_data] builds while it reads the feed: the
    rows for [homologene.tab] and the lines printed to [log.txt]. *)
Record state : Type := State {
  homologs_out : list (list string);
  fp_log : list string
}.

Definition header : list string := ["group_id"; "tax_id"; "entrez_id"].

Section Loop.
Variable gene_history : gmap (string * string) string.
Variable common_tax_ids : list string.

(** The body of [for line in homologs.split('\n')]. *)
Definition homolog_line (st : state) (line : string) : result state :=
  let columns := split TAB line in
  let? tax := index columns tax_id in
  let? entrez := index columns entrez_id in
  let gene_id_status := gene_history !! (tax, entrez) in
  let? tax' := index columns tax_id in
  if negb (bool_decide (tax' ∈ common_tax_ids)) then Ok st
  else if bool_decide (gene_id_status = Some "-") then
    let? entrez' := index columns entrez_id in
    Ok (State (homologs_out st)
              (fp_log st ++ ["Gene " +:+ entrez' +:+ " is discontinued"]))
  else
    match gene_id_status with
    | None =>
        let? gene_id := index columns entrez_id in
        let? group := index columns group_id in
        let? tax'' := index columns tax_id in
        Ok (State (homologs_out st ++ [[group; tax''; gene_id]]) (fp_log st))
    | Some new_id =>
        let? entrez' := index columns entrez_id in
        let? group := index columns group_id in
        let? tax'' := index columns tax_id in
        Ok (State (homologs_out st ++ [[group; tax''; new_id]])
                  (fp_log st ++ ["Gene " +:+ entrez' +:+ " is now " +:+ new_id]))
    end.

(** The loop: an exception leaves it at once, with the state the
    earlier lines built. *)
Fixpoint homolog_loop (lines : list string) (st : state) : state * option exn :=
  match lines with
  | [] => (st, None)
  | line :: rest =>
      match homolog_line st line with
      | Ok st' => homolog_loop rest st'
      | Raise e => (st, Some e)
      end
  end.
End Loop.

(** What a run of [prepare_data] leaves behind: the lines appended to
    [log.txt], the rows written to [homologene.tab] ([None]: the file was
    not written) and the exception that ended the run, if any. *)
Record run : Type := Run {
  log_txt : list string;
  homologene_tab : option (list (list string));
  raised : option exn
}.

(** [prepare_data]; [homolog_response] and [history_response] are the
    bodies of the two downloads, [common_tax_ids] is [common_taxids()]. *)
Definition prepare_data (homolog_response history_response : string)
    (common_tax_ids : list string) : run :=
  let homologs := handle_response homolog_response in
  match load_gene_history history_response with
  | Raise e => Run [] None (Some e)
  | Ok gene_history =>
      match homolog_loop gene_history common_tax_ids
              (split LF homologs) (State [header] []) with
      | (st, Some e) => Run (fp_log st) None (Some e)
      | (st, None) => Run (fp_log st) (Some (homologs_out st)) None
      end
  end.

(** The resolver's answer, as the comment in [prepare_data] reads the
    value of [gene_history.get]: a dash is a discontinued gene, another
    string is the new id, [None] is a gene that is still valid. *)
Inductive Resolution : Type :=
| Current (new_id : string)
| Discontinued
| Unknown.

Definition resolve (gene_history : gmap (string * string) string)
    (tax entrez : string) : Resolution :=
  match gene_history !! (tax, entrez) with
  | None => Unknown
  | Some status => if bool_decide (status = "-") then Discontinued else Current status
  end.

End HomologGenes.

(** ** [server_update/marker_genes.py] *)

(** A row of a marker table, by the columns of its domain: Organism, Name,
    Cell Type, Reference, URL, Entrez ID, and Function once the
    descriptions are added. *)
Definition marker_entry : Type := (string * string * string * string * string * string)%type.
Definition marker_row : Type :=
  (string * string * string * string * string * string * string)%type.

(** The pair (Cell Type, Entrez ID) of a row. *)
Definition entry_key (entry : marker_entry) : string * string :=
  let '(_, _, cell, _, _, entrez) := entry in (cell, entrez).
Definition row_key (row : marker_row) : string * string :=
  let '(_, _, cell, _, _, entrez, _) := row in (cell, entrez).

Module PanglaoDB.

Definition reference : string := "PanglaoDB".
Definition reference_url : string := "https://panglaodb.se/".

Definition species : nat := 0.
Definition gene_symbol : nat := 1.
Definition cell_type : nat := 2.

Definition organism_mapper : gmap string string :=
  <["Mm" := "Mouse"]> (<["Hs" := "Human"]> ∅).

(** [gene_entry] of the loop: Organism, Name, Cell Type, Reference, URL. *)
Definition gene_entry : Type := (string * string * string * string * string)%type.

(** The body of [for org in columns[species].split(' ')];
    [genes_by_organism] is a [defaultdict(list)]. *)
Definition org_step (columns : list string)
    (genes_by_organism : gmap string (list gene_entry)) (org : string)
  : result (gmap string (list gene_entry)) :=
  match organism_mapper !! org with
  | Some organism =>
      let? symbol := index columns gene_symbol in
      let? cell := index columns cell_type in
      let entry := (organism, symbol, cell, reference, reference_url) in
      Ok (<[organism := default [] (genes_by_organism !! organism) ++ [entry]]>
            genes_by_organism)
  | None => Ok genes_by_organism
  end.

(** The body of [for line in content.split('\n')]. *)
Definition line_step (genes_by_organism : gmap string (list gene_entry)) (line : string)
  : result (gmap string (list gene_entry)) :=
  let columns := split TAB line in
  let? orgs := index columns species in
  for_each (org_step columns) (split " " orgs) genes_by_organism.

(** [handle_response]; [response] is the unzipped download. *)
Definition handle_response (response : string) : string := strip response.

Section Matcher.
(** [GeneMatcher(tax_id, case_insensitive=True)] is not part of these
    sources. [match_gene tax_id name] is the Entrez ID cell that
    [match_table_column] gives a row whose Name is [name], and
    [gene_function tax_id name] the cell of [_gene_function_table] for it. *)
Variable match_gene : string -> string -> string.
Variable gene_function : string -> string -> string.

(** The table of one organism: the entries collected for it, with the
    Entrez ID and Function columns added. *)
Definition organism_table (tax_id organism : string)
    (genes_by_organism : gmap string (list gene_entry)) : list marker_row :=
  (fun entry : gene_entry =>
     let '(org, name, cell, ref, url) := entry in
     (org, name, cell, ref, url, match_gene tax_id name, gene_function tax_id name))
  <$> default [] (genes_by_organism !! organism).

(** [prepare_data]: the mouse table, then the human table. *)
Definition prepare_data (response : string) : result (list marker_row) :=
  let content := handle_response response in
  let? genes_by_organism := for_each line_step (split LF content) ∅ in
  Ok (organism_table "10090" "Mouse" genes_by_organism
      ++ organism_table "9606" "Human" genes_by_organism).
End Matcher.

End PanglaoDB.

Module CellMarkerDB.

(** [self.reference] is ['{}'] and [self.reference_url] is the PubMed query
    with ['{}'] at its end: [format] with one string gives that string,
    with the prefix before it for the URL. *)
Definition reference_format (s : string) : string := s.
Definition reference_url_format (s : string) : string :=
  "https://www.ncbi.nlm.nih.gov/pubmed/?term=" +:+ s.

Definition species_col : nat := 0.
Definition cell_name_col : nat := 5.
Definition gene_symbol_col : nat := 8.
Definition entrez_id_col : nat := 9.
Definition pubmed_id_col : nat := 13.
Definition organisms : list string := ["Human"; "Mouse"].

Record state : Type := State {
  unique_rows : gset (string * string);
  data : list marker_entry
}.

(** [.replace('[', '').replace(']', '').split(', ')] *)
Definition values (column : string) : list string :=
  split ", " (remove_char "]" (remove_char "[" column)).

(** The body of [for symbol, entrez_id in zip(symbols, entrez_ids)]. A
    [ValueError] of [int] is caught where it is raised; reading a column
    again gives the value read before. *)
Definition pair_step (organism : string) (columns : list string)
    (st : state) (pair : string * string) : result state :=
  let '(symbol, entrez_id) := pair in
  if negb (int_parses entrez_id) then Ok st
  else
    let? cell := index columns cell_name_col in
    if bool_decide ((cell, entrez_id) ∈ unique_rows st) then Ok st
    else
      let? pubmed := index columns pubmed_id_col in
      let ref := reference_format pubmed in
      let ref_link := if int_parses ref then reference_url_format pubmed else "?" in
      Ok (State ({[(cell, entrez_id)]} ∪ unique_rows st)
                (data st ++ [(organism, symbol, cell, ref, ref_link, entrez_id)])).

(** The body of [for line in content.split('\n')]. *)
Definition line_step (st : state) (line : string) : result state :=
  let columns := split TAB line in
  let? organism := index columns species_col in
  if bool_decide (organism ∈ organisms) then
    let? symbol_column := index columns gene_symbol_col in
    let symbols := values symbol_column in
    let? entrez_column := index columns entrez_id_col in
    let entrez_ids := values entrez_column in
    for_each (pair_step organism columns) (zip symbols entrez_ids) st
  else Ok st.

(** [handle_response] *)
Definition handle_response (response : string) : string := strip response.

(** The Function column: [Gene(entrez_id).load_ncbi_info()] is not part of
    these sources; [gene_description entrez_id] is the cell it gives. *)
Definition with_function (gene_description : string -> string) (entry : marker_entry)
  : marker_row :=
  let '(organism, symbol, cell, ref, ref_link, entrez_id) := entry in
  (organism, symbol, cell, ref, ref_link, entrez_id, gene_description entrez_id).

(** [prepare_data] *)
Definition prepare_data (gene_description : string -> string) (response : string)
  : result (list marker_row) :=
  let content := handle_response response in
  let? st := for_each line_step (split LF content) (State ∅ []) in
  Ok (with_function gene_description <$> data st).

End CellMarkerDB.

(** ** [server_update/ncbi_gene_info.py] *)

Module GeneInfo.

(** The columns of [gene_info], by position. *)
Definition tax_id : nat := 0.
Definition gene_id : nat := 1.
Definition symbol : nat := 2.
Definition synonyms : nat := 4.
Definition db_refs : nat := 5.
Definition description : nat := 8.
Definition locus_tag : nat := 3.
Definition chromosome : nat := 6.
Definition map_location : nat := 7.
Definition type_of_gene : nat := 9.
Definition modification_date : nat := 14.
Definition symbol_from_nomenclature_authority : nat := 10.
Definition full_name_from_nomenclature_authority : nat := 11.
Definition nomenclature_status : nat := 12.
Definition other_designations : nat := 13.

(** The two module-level variables that [handle_response] declares
    [global]: the set [relevant_taxonomy_ids] and the
    [defaultdict(set)] [gene_info], from a taxonomy id to the set of the
    records (tuples of fields) of that id. *)
Record globals : Type := Globals {
  relevant_taxonomy_ids : gset string;
  gene_info : gmap string (gset (list string))
}.

(** The body of [for line in info_file]. *)
Definition info_line (relevant : gset string)
    (parsed : gmap string (gset (list string))) (line : string)
  : result (gmap string (gset (list string))) :=
  let info := split TAB (strip line) in
  let? tax := index info tax_id in
  if bool_decide (tax ∈ relevant) then
    Ok (<[tax := default ∅ (parsed !! tax) ∪ {[info]}]> parsed)
  else Ok parsed.

(** [handle_response]; [response] is the unzipped [gene_info.gz]. The
    first line is the header and is skipped; [gene_info] is bound to a new
    [defaultdict] before the lines are read. *)
Definition handle_response (response : string) (g : globals) : result globals :=
  if negb (Nat.eqb (size (gene_info g)) 0) then Ok g
  else
    let? parsed :=
      for_each (info_line (relevant_taxonomy_ids g)) (tail (readlines response)) ∅ in
    Ok (Globals (relevant_taxonomy_ids g) parsed).

(** A row of the table [gene_info], by the columns of [init_table];
    [None] is SQL's NULL. *)
Record row : Type := Row {
  row_species : option string;
  row_tax_id : option string;
  row_gene_id : option string;
  row_symbol : option string;
  row_synonyms : option string;
  row_db_refs : option string;
  row_description : option string;
  row_locus_tag : option string;
  row_chromosome : option string;
  row_map_location : option string;
  row_type_of_gene : option string;
  row_symbol_from_nomenclature_authority : option string;
  row_full_name_from_nomenclature_authority : option string;
  row_nomenclature_status : option string;
  row_other_designations : option string;
  row_modification_date : option string
}.

(** [x if x != '-' else None] *)
Definition unless_dash (x : string) : option string :=
  if bool_decide (x <> "-") then Some x else None.

Section Insert.
(** Not part of these sources: [common_taxid_to_name(self.taxonomy_id)],
    and the two JSON cells
    [json.dumps({'values': parse_synonyms(s)})] and
    [json.dumps(parse_sources(s))] as functions of the raw field [s]. *)
Variable species_name : string.
Variable synonyms_json : string -> string.
Variable db_refs_json : string -> string.

(** The tuple that [prepare_data] hands to [INSERT INTO gene_info] for one
    record [gene]; its fields are read in the order of the tuple. *)
Definition insert_values (gene : list string) : result row :=
  let? tax := index gene tax_id in
  let? gid := index gene gene_id in
  let? sym := index gene symbol in
  let? syn := index gene synonyms in
  let? refs := index gene db_refs in
  let? descr := index gene description in
  let? locus := index gene locus_tag in
  let? chrom := index gene chromosome in
  let? map_loc := index gene map_location in
  let? type := index gene type_of_gene in
  let? nom_symbol := index gene symbol_from_nomenclature_authority in
  let? nom_name := index gene full_name_from_nomenclature_authority in
  let? nom_status := index gene nomenclature_status in
  let? other := index gene other_designations in
  let? modified := index gene modification_date in
  Ok (Row (Some species_name) (Some tax) (Some gid) (Some sym)
          (Some (synonyms_json syn)) (Some (db_refs_json refs))
          (unless_dash descr) (unless_dash locus) (unless_dash chrom)
          (unless_dash map_loc) (unless_dash type) (unless_dash nom_symbol)
          (unless_dash nom_name) (unless_dash nom_status) (unless_dash other)
          (Some modified)).
End Insert.

(** [species_genes] of [prepare_data]: the records of the species and of
    its strains, with [strains] for
    [taxonomy_db.get_all_strains(self.taxonomy_id)];
    [gene_info.get(_tax, [])] is nothing for an id that is no key. *)
Definition species_genes (taxonomy_id : string) (strains : list string)
    (parsed : gmap string (gset (list string))) : gset (list string) :=
  foldl (fun genes tax => genes ∪ default ∅ (parsed !! tax)) ∅ (taxonomy_id :: strains).

(** The loop of [__main__] that fills [relevant_taxonomy_ids]: each common
    id is added, then its strains. *)
Definition load_taxonomies (common_taxids : list string)
    (get_all_strains : string -> list string) (relevant : gset string) : gset string :=
  foldl (fun ids tax => ids ∪ {[tax]} ∪ list_to_set (get_all_strains tax))
        relevant common_taxids.

End GeneInfo.

(** ** [server_update/utils.py] *)

Module RemoteResource.

(** The values of an info file: [None], a string, a number, a list of
    strings. *)
Inductive value : Type :=
| VNone
| VStr (s : string)
| VInt (n : nat)
| VList (l : list string).

(** [info_file_schema], in the order of its keys. *)
Definition info_file_schema : list (string * value) :=
  [("domain", VNone); ("filename", VNone); ("source", VNone); ("title", VNone);
   ("tags", VList []); ("size", VNone); ("datetime", VNone);
   ("uncompressed", VNone); ("compression", VNone)].

(** [d[key] = v] on an [OrderedDict] [d] (its items in order): a key that
    is there keeps its place, a new key goes to the end. *)
Fixpoint setitem (key : string) (v : value) (d : list (string * value))
  : list (string * value) :=
  match d with
  | [] => [(key, v)]
  | (key', v') :: d' =>
      if bool_decide (key' = key) then (key, v) :: d' else (key', v') :: setitem key v d'
  end.

(** [d.get(key)] *)
Fixpoint getitem (key : string) (d : list (string * value)) : option value :=
  match d with
  | [] => None
  | (key', v') :: d' => if bool_decide (key' = key) then Some v' else getitem key d'
  end.

(** [d.update] with the keyword arguments [kwargs]: they are set one
    after the other. *)
Definition update (d kwargs : list (string * value)) : list (string * value) :=
  foldl (fun d kv => setitem kv.1 kv.2 d) d kwargs.

(** [create_info_file]: the dictionary that is dumped to the [.info] file.
    [today] is the formatted [datetime.today()] and [st_size] is
    [os.stat(self.file_name).st_size]. *)
Definition create_info_file (kwargs : list (string * value)) (today : string)
    (st_size : nat) : list (string * value) :=
  let info_dict := update info_file_schema kwargs in
  let info_dict := setitem "datetime" (VStr today) info_dict in
  let info_dict := setitem "size" (VInt st_size) info_dict in
  setitem "source" (VStr "server_file") info_dict.

(** The attributes of a resource that [to_serverfile_format] reads. *)
Record resource : Type := Resource {
  domain : string;
  file_name : string;
  title : string;
  tags : list string;
  compression : string
}.

Section Files.
(** Not part of these sources: the bytes that [gzip.open(..., 'wb')] with
    [shutil.copyfileobj] writes for a content, the text that [json.dump]
    writes for a dictionary, and the formatted date of the run. *)
Variable gzip_bytes : string -> string.
Variable json_dump : list (string * value) -> string.
Variable today : string.

(** [to_serverfile_format] on the files of the working directory, from a
    path to its content; [None] is the [FileNotFoundError] of [os.stat]
    when the file is not there (nothing is written before it). *)
Definition to_serverfile_format (self : resource) (files : gmap string string)
  : option (gmap string string) :=
  match files !! file_name self with
  | None => None
  | Some content =>
      let uncompressed_size := String.length content in
      let files := <[file_name self +:+ ".temp" := gzip_bytes content]> files in
      let files := delete (file_name self) files in
      let files :=
        match files !! (file_name self +:+ ".temp") with
        | Some moved => <[file_name self := moved]> (delete (file_name self +:+ ".temp") files)
        | None => files
        end in
      let st_size := from_option String.length 0 (files !! file_name self) in
      let info :=
        create_info_file
          [("domain", VStr (domain self)); ("filename", VStr (file_name self));
           ("title", VStr (title self)); ("tags", VList (tags self));
           ("uncompressed", VInt uncompressed_size);
           ("compression", VStr (compression self))]
          today st_size in
      Some (<[file_name self +:+ ".info" := json_dump info]> files)
  end.
End Files.

End RemoteResource.

(** ** Reference definitions *)

(** The state of the homolog loop after a line of at least three fields
    [g], [t], [e]. *)
Definition after_line (gene_history : gmap (string * string) string)
    (common_tax_ids : list string) (st : HomologGenes.state) (g t e : string)
  : HomologGenes.state :=
  if bool_decide (t ∈ common_tax_ids) then
    match HomologGenes.resolve gene_history t e with
    | HomologGenes.Discontinued =>
        HomologGenes.State (HomologGenes.homologs_out st)
          (HomologGenes.fp_log st ++ ["Gene " +:+ e +:+ " is discontinued"])
    | HomologGenes.Current new_id =>
        HomologGenes.State (HomologGenes.homologs_out st ++ [[g; t; new_id]])
          (HomologGenes.fp_log st ++ ["Gene " +:+ e +:+ " is now " +:+ new_id])
    | HomologGenes.Unknown =>
        HomologGenes.State (HomologGenes.homologs_out st ++ [[g; t; e]])
          (HomologGenes.fp_log st)
    end
  else st.

(** A data row: three fields, the second a relevant taxonomy id. *)
Definition relevant_row (common_tax_ids : list string) (row : list string) : Prop :=
  exists g t e, row = [g; t; e] /\ t ∈ common_tax_ids.

(** The row that a line of the homolog feed gives, if any: a line of at
    least three fields with a relevant taxonomy id gives its group id, its
    taxonomy id and its entrez id, or the id the history has for it; it
    gives none when the history has a dash for it. *)
Definition homolog_row (gene_history : gmap (string * string) string)
    (common_tax_ids : list string) (line : string) : option (list string) :=
  match split TAB line with
  | g :: t :: e :: _ =>
      if bool_decide (t ∈ common_tax_ids) then
        match gene_history !! (t, e) with
        | None => Some [g; t; e]
        | Some new_id => if bool_decide (new_id = "-") then None else Some [g; t; new_id]
        end
      else None
  | _ => None
  end.

(** Keeping, of the items of a list, the first one of every key that is
    not in [seen]: what "the first occurrence wins" means. *)
Fixpoint keep_first {A : Type} (key : A -> string * string)
    (seen : gset (string * string)) (l : list A) : list A :=
  match l with
  | [] => []
  | x :: rest =>
      if bool_decide (key x ∈ seen) then keep_first key seen rest
      else x :: keep_first key ({[key x]} ∪ seen) rest
  end.

(** A text of white space only (the empty text included). *)
Fixpoint all_space (s : string) : bool :=
  match s with
  | EmptyString => true
  | String c s' => isspace c && all_space s'
  end.

(** The PanglaoDB entries of one organism, read off the feed line by
    line: a line of at least three fields gives one entry for every
    occurrence of the organism's code in its first field. *)
Definition panglao_entries (code organism : string) (lines : list string)
  : list PanglaoDB.gene_entry :=
  flat_map (fun line =>
              match split TAB line with
              | orgs :: name :: cell :: _ =>
                  (fun _ => (organism, name, cell,
                             PanglaoDB.reference, PanglaoDB.reference_url))
                  <$> filter (fun org => org = code) (split " " orgs)
              | _ => []
              end)
           lines.

(** A line the PanglaoDB loop gets through: it has three fields, or no
    recognised code in its first field. *)
Definition panglao_line_passes (line : string) : Prop :=
  3 <= length (split TAB line)
  \/ Forall (fun org => PanglaoDB.organism_mapper !! org = None)
       (split " " (default EmptyString (head (split TAB line)))).

(** An entry with its Entrez ID and Function columns. *)
Definition panglao_row (match_gene gene_function : string -> string -> string)
    (tax_id : string) (entry : PanglaoDB.gene_entry) : marker_row :=
  let '(org, name, cell, ref, url) := entry in
  (org, name, cell, ref, url, match_gene tax_id name, gene_function tax_id name).

(** The entries of a CellMarker feed before any is dropped as a repeat of
    its key, in the order of the input: every (symbol, id) pair of every
    line of an organism of interest whose id reads as an integer. This is
    the reference the build is compared with; a column that a line does
    not have reads as the empty string here (the build raises where it
    reads one). *)
Module CellMarkerPairs.
Import CellMarkerDB.

Definition column (columns : list string) (i : nat) : string := default "" (columns !! i).

Definition pair_entry (organism : string) (columns : list string)
    (symbol entrez_id : string) : marker_entry :=
  (organism, symbol, column columns cell_name_col,
   reference_format (column columns pubmed_id_col),
   (if int_parses (reference_format (column columns pubmed_id_col))
    then reference_url_format (column columns pubmed_id_col) else "?"),
   entrez_id).

Definition pair_entries (organism : string) (columns : list string)
    (pairs : list (string * string)) : list marker_entry :=
  flat_map (fun pair : string * string =>
              if int_parses pair.2 then [pair_entry organism columns pair.1 pair.2] else [])
           pairs.

Definition line_entries (line : string) : list marker_entry :=
  let columns := split TAB line in
  if bool_decide (column columns species_col ∈ organisms) then
    pair_entries (column columns species_col) columns
      (zip (values (column columns gene_symbol_col)) (values (column columns entrez_id_col)))
  else [].

Definition all_entries (response : string) : list marker_entry :=
  flat_map line_entries (split LF (handle_response response)).

End CellMarkerPairs.

(** ** Concrete feeds *)

(** A line of tab-separated fields, and a text of LF-separated lines. *)
Definition tsv (fields : list string) : string := String.concat TAB fields.
Definition text (lines : list string) : string := String.concat LF lines.

(** The feeds of the examples: one homolog line of group 5, human gene
    123, and two histories of that gene. *)
Definition homolog_5_9606_123 : string := tsv ["5"; "9606"; "123"].
Definition history_123_now_456 : string :=
  text [tsv ["#tax_id"; "GeneID"; "Discontinued_GeneID"]; tsv ["9606"; "456"; "123"]; ""].
Definition history_123_discontinued : string :=
  text [tsv ["#tax_id"; "GeneID"; "Discontinued_GeneID"]; tsv ["9606"; "-"; "123"]; ""].

(** A homolog feed whose second line has one field, between two good lines. *)
Definition homologs_with_short_line : string :=
  text [tsv ["5"; "9606"; "123"]; "malformed"; tsv ["6"; "9606"; "789"]].

(** A history feed whose second data line has one field. *)
Definition history_with_short_line : string :=
  text [tsv ["#tax_id"; "GeneID"; "Discontinued_GeneID"];
        tsv ["9606"; "456"; "123"]; "9606"; tsv ["9606"; "-"; "789"]; ""].

(** A feed of three lines: a human gene, a mouse gene, a human gene; only
    human is relevant. *)
Definition homologs_two_species : string :=
  text [tsv ["5"; "9606"; "123"]; tsv ["5"; "10090"; "321"]; tsv ["6"; "9606"; "789"]].

(** A history in which 123 was replaced by 456 and 456 was then
    discontinued. *)
Definition history_chain : string :=
  text [tsv ["#tax_id"; "GeneID"; "Discontinued_GeneID"];
        tsv ["9606"; "456"; "123"]; tsv ["9606"; "-"; "456"]; ""].

(** A CellMarker line: the columns the build reads are the organism (0),
    the cell name (5), the symbols (8), the Entrez ids (9) and the PubMed
    id (13). *)
Definition cellmarker_line (organism cell symbols ids pubmed : string) : string :=
  tsv [organism; "Blood"; "UBERON_0000178"; "Normal"; "Normal cell"; cell; "CL_0000084";
       "CD3"; symbols; ids; "CD3E"; "P07766"; "Experiment"; pubmed; "NA"].

(** Two lines that give the key (T cell, 916), with different symbols and
    references. *)
Definition cellmarker_repeated : string :=
  text [cellmarker_line "Human" "T cell" "CD3E" "916" "28775224";
        cellmarker_line "Human" "T cell" "T3E" "916" "Company"].

(** Two lines of several pairs each: the second repeats the keys
    (T cell, 920) and (T cell, 916) of the first, in another order and for
    another organism, and has one key of its own. *)
Definition cellmarker_repeated_pairs : string :=
  text [cellmarker_line "Human" "T cell" "[CD3E, CD4], CD8A" "[916, 920], 925" "28775224";
        cellmarker_line "Mouse" "T cell" "Cd4, Cd3e, Ptprc" "920, 916, 19264" "Company"].

(** A homolog feed whose lines share the group and the taxonomy id, and a
    history that replaces 123 by 456 and discontinues 555. *)
Definition homologs_one_group : string :=
  text [tsv ["5"; "9606"; "123"]; tsv ["5"; "9606"; "555"]; tsv ["5"; "10090"; "321"];
        tsv ["5"; "9606"; "789"]].
Definition history_123_and_555 : string :=
  text [tsv ["#tax_id"; "GeneID"; "Discontinued_GeneID"];
        tsv ["9606"; "456"; "123"]; tsv ["9606"; "-"; "555"]; ""].

(** A PanglaoDB feed with the same line twice. *)
Definition panglao_repeated : string :=
  text [tsv ["Mm"; "Gene1"; "CellA"]; tsv ["Mm"; "Gene1"; "CellA"]].

(** A line of [gene_info]: fifteen fields, of which the first three are
    given. *)
Definition gene_info_line (tax gid sym : string) : string :=
  tsv [tax; gid; sym; "-"; "-"; "-"; "1"; "-"; "a gene"; "protein-coding";
       "-"; "-"; "-"; "-"; "20190101"].

Definition gene_info_feed : string :=
  text [tsv ["#tax_id"; "GeneID"; "Symbol"]; gene_info_line "9606" "1" "A1BG";
        gene_info_line "7" "2" "other"; ""].
Definition gene_info_feed' : string :=
  text [tsv ["#tax_id"; "GeneID"; "Symbol"]; gene_info_line "9606" "10" "NAT2"; ""].

(** A record whose symbol and modification date are dashes. *)
Definition gene_with_dashes : list string :=
  ["9606"; "1"; "-"; "-"; "-"; "-"; "-"; "-"; "-"; "-"; "-"; "-"; "-"; "-"; "-"].

(** ** Facts on the primitives *)

(** What [int] accepts: digits with white space around, a sign, single
    underscores; it raises on a separator (FS, US) before or after the
    digits, on a doubled underscore, on a word and on the empty string. *)
Example int_parses_examples :
  int_parses "916" = true
  /\ int_parses (" 916" +:+ LF) = true
  /\ int_parses "+9_16" = true
  /\ int_parses (String (ascii_of_nat 28) "916") = false
  /\ int_parses ("28775224" +:+ String (ascii_of_nat 31) "") = false
  /\ int_parses "9__16" = false
  /\ int_parses "NA" = false
  /\ int_parses "" = false.
Proof. repeat split. Qed.


Section PyFacts.

Lemma index_Ok {A : Type} (seq : list A) (i : nat) (x : A) :
  seq !! i = Some x -> index seq i = Ok x.
Proof. intros H. unfold index. by rewrite H. Qed.

Lemma index_Raise {A : Type} (seq : list A) (i : nat) :
  length seq <= i -> index seq i = Raise IndexError.
Proof. intros H. unfold index. by rewrite lookup_ge_None_2. Qed.

Lemma split_from_nonempty (sep : string) (s : string) :
  forall skip, split_from sep skip s <> [].
Proof.
  induction s as [|c s IH]; intros skip; cbn [split_from]; [done|].
  destruct skip as [|k]; [|apply IH].
  destruct (String.prefix sep (String c s)); [done|].
  destruct (split_from sep 0 s); done.
Qed.

Lemma split_nonempty (sep s : string) :
  exists field fields, split sep s = field :: fields.
Proof.
  unfold split. pose proof (split_from_nonempty sep s 0) as H.
  destruct (split_from sep 0 s) as [|f fs]; [done|eauto].
Qed.

End PyFacts.

(** ** The homolog table *)

Section HomologFacts.
Import HomologGenes.

Variable gene_history : gmap (string * string) string.
Variable common_tax_ids : list string.

Lemma homolog_line_fields (st : state) (line g t e : string) (more : list string) :
  split TAB line = g :: t :: e :: more ->
  homolog_line gene_history common_tax_ids st line = Ok (after_line gene_history common_tax_ids st g t e).
Proof.
  intros Hcols. unfold homolog_line, after_line, resolve. rewrite Hcols. cbn.
  destruct (bool_decide (t ∈ common_tax_ids)); cbn; [|done].
  destruct (gene_history !! (t, e)) as [status|]; cbn; [|done].
  destruct (bool_decide_reflect (Some status = Some "-")) as [Heq|Hne],
           (bool_decide_reflect (status = "-")) as [Heq'|Hne']; cbn; try done.
  - congruence.
  - congruence.
Qed.

Lemma homolog_line_short (st : state) (line : string) :
  length (split TAB line) < 3 -> homolog_line gene_history common_tax_ids st line = Raise IndexError.
Proof.
  intros Hlen. unfold homolog_line.
  destruct (split TAB line) as [|g [|t [|e more]]]; cbn in Hlen; try lia; reflexivity.
Qed.

Lemma homolog_line_cases (st : state) (line : string) :
  homolog_line gene_history common_tax_ids st line = Raise IndexError \/
  exists g t e, homolog_line gene_history common_tax_ids st line = Ok (after_line gene_history common_tax_ids st g t e).
Proof.
  destruct (split TAB line) as [|g [|t [|e more]]] eqn:Hcols;
    try (left; apply homolog_line_short; rewrite Hcols; cbn; lia).
  right. exists g, t, e. by eapply homolog_line_fields.
Qed.

Lemma homolog_loop_raises (lines : list string) (bad : string) :
  bad ∈ lines -> length (split TAB bad) < 3 ->
  forall st, exists st', homolog_loop gene_history common_tax_ids lines st = (st', Some IndexError).
Proof.
  intros Hin Hbad. induction lines as [|line rest IH]; [by apply elem_of_nil in Hin|].
  intros st. cbn [homolog_loop]. apply elem_of_cons in Hin as [<-|Hin].
  - rewrite homolog_line_short by done. eauto.
  - destruct (homolog_line_cases st line) as [->|(g & t & e & ->)]; [eauto|].
    by apply IH.
Qed.

Lemma after_line_rows (st : state) (g t e : string) (data : list (list string)) :
  homologs_out st = header :: data -> Forall (relevant_row common_tax_ids) data ->
  exists data', homologs_out (after_line gene_history common_tax_ids st g t e) = header :: data'
                /\ Forall (relevant_row common_tax_ids) data'.
Proof.
  intros Hout Hdata. unfold after_line.
  destruct (bool_decide_reflect (t ∈ common_tax_ids)) as [Hin|Hout']; [|eauto].
  assert (forall id, Forall (relevant_row common_tax_ids) (data ++ [[g; t; id]])) as Hext.
  { intros id. apply Forall_app; split; [done|].
    apply Forall_singleton. by exists g, t, id. }
  destruct (resolve gene_history t e); cbn; rewrite ?Hout; eauto.
Qed.

Lemma homolog_loop_rows (lines : list string) :
  forall st data st',
    homologs_out st = header :: data -> Forall (relevant_row common_tax_ids) data ->
    homolog_loop gene_history common_tax_ids lines st = (st', None) ->
    exists data', homologs_out st' = header :: data' /\ Forall (relevant_row common_tax_ids) data'.
Proof.
  induction lines as [|line rest IH]; intros st data st' Hout Hdata Hrun;
    cbn [homolog_loop] in Hrun.
  - injection Hrun as <-. eauto.
  - destruct (homolog_line_cases st line) as [Hr|(g & t & e & Hr)];
      rewrite Hr in Hrun; [done|].
    destruct (after_line_rows st g t e data Hout Hdata) as (data1 & Hout1 & Hdata1).
    by eapply IH.
Qed.

End HomologFacts.

Section HistoryFacts.
Import HomologGenes.

Lemma history_line_short (gene_history : gmap (string * string) string) (line : string) :
  length (split TAB (strip line)) < 3 ->
  history_line gene_history line = Raise IndexError.
Proof.
  intros Hlen. unfold history_line.
  destruct (split TAB (strip line)) as [|a [|b [|c more]]]; cbn in Hlen; try lia; reflexivity.
Qed.

Lemma history_loop_raises (lines : list string) (bad : string) :
  bad ∈ lines -> length (split TAB (strip bad)) < 3 ->
  forall gene_history, history_loop lines gene_history = Raise IndexError.
Proof.
  intros Hin Hbad. induction lines as [|line rest IH]; [by apply elem_of_nil in Hin|].
  intros gene_history. cbn [history_loop]. apply elem_of_cons in Hin as [<-|Hin].
  - by rewrite history_line_short.
  - destruct (history_line gene_history line) as [gene_history'|[]]; cbn; [|done].
    by apply IH.
Qed.

End HistoryFacts.

(** ** Claims on the homolog table *)

Import HomologGenes.

(** C1. A line of the homolog feed with a relevant taxonomy id is resolved
    through the gene history on (taxonomy id, entrez id): a discontinued
    gene leaves the table as it was (a note goes to the log), a replaced
    gene appends the row with the new id, a gene the history does not have
    (exactly when the pair is no key of the mapping) appends the row with
    its own id; the loop then goes on with the rest of the feed. *)
Theorem homolog_line_resolved
    (gene_history : gmap (string * string) string) (common_tax_ids : list string)
    (st : state) (line : string) (rest : list string) (g t e : string) (more : list string) :
  split TAB line = g :: t :: e :: more ->
  t ∈ common_tax_ids ->
  homolog_loop gene_history common_tax_ids (line :: rest) st =
    homolog_loop gene_history common_tax_ids rest
      match resolve gene_history t e with
      | Discontinued =>
          State (homologs_out st) (fp_log st ++ ["Gene " +:+ e +:+ " is discontinued"])
      | Current new_id =>
          State (homologs_out st ++ [[g; t; new_id]])
                (fp_log st ++ ["Gene " +:+ e +:+ " is now " +:+ new_id])
      | Unknown => State (homologs_out st ++ [[g; t; e]]) (fp_log st)
      end
  /\ (resolve gene_history t e = Unknown <-> gene_history !! (t, e) = None).
Proof.
  intros Hcols Hin. split.
  - cbn [homolog_loop]. rewrite (homolog_line_fields _ _ _ _ _ _ _ _ Hcols).
    unfold after_line. by rewrite bool_decide_true.
  - unfold resolve. destruct (gene_history !! (t, e)) as [status|]; [|done].
    split; [|done]. by destruct (bool_decide (status = "-")).
Qed.

(** The line ['5','9606','123']: with a history that replaces 123 by 456
    the table is the header and ('5','9606','456'); with a history that
    discontinues 123 the table is the header alone. *)
Lemma homolog_line_resolved_witness :
  (split TAB homolog_5_9606_123 = ["5"; "9606"; "123"] /\ "9606" ∈ ["9606"])
  /\ homolog_loop {[("9606", "123") := "456"]} ["9606"] [homolog_5_9606_123] (State [header] [])
     = (State [header; ["5"; "9606"; "456"]] ["Gene 123 is now 456"], None)
  /\ homolog_loop {[("9606", "123") := "-"]} ["9606"] [homolog_5_9606_123] (State [header] [])
     = (State [header] ["Gene 123 is discontinued"], None)
  /\ prepare_data homolog_5_9606_123 history_123_now_456 ["9606"]
     = Run ["Gene 123 is now 456"] (Some [header; ["5"; "9606"; "456"]]) None
  /\ prepare_data homolog_5_9606_123 history_123_discontinued ["9606"]
     = Run ["Gene 123 is discontinued"] (Some [header]) None.
Proof.
  assert (split TAB homolog_5_9606_123 = ["5"; "9606"; "123"]) as Hcols by reflexivity.
  assert ("9606" ∈ ["9606"]) as Hin by (refine (bool_decide_unpack _ _); vm_compute; exact I).
  split; [by split|].
  split; [|split; [|split; vm_compute; reflexivity]].
  - rewrite (proj1 (homolog_line_resolved {[("9606", "123") := "456"]} ["9606"]
                      (State [header] []) homolog_5_9606_123 [] "5" "9606" "123" [] Hcols Hin)).
    vm_compute. reflexivity.
  - rewrite (proj1 (homolog_line_resolved {[("9606", "123") := "-"]} ["9606"]
                      (State [header] []) homolog_5_9606_123 [] "5" "9606" "123" [] Hcols Hin)).
    vm_compute. reflexivity.
Defined.

(** C3, as the code has it: a line of the homolog feed with fewer than
    three tab-separated fields raises [IndexError], nothing catches it, and
    the build ends there: [homologene.tab] is not written. *)
Theorem short_homolog_line_aborts
    (homolog_response history_response : string) (common_tax_ids : list string)
    (bad : string) :
  bad ∈ split LF (handle_response homolog_response) ->
  length (split TAB bad) < 3 ->
  raised (prepare_data homolog_response history_response common_tax_ids) = Some IndexError
  /\ homologene_tab (prepare_data homolog_response history_response common_tax_ids) = None.
Proof.
  intros Hin Hbad. unfold prepare_data.
  destruct (load_gene_history history_response) as [gene_history|[]]; [|done].
  destruct (homolog_loop_raises gene_history common_tax_ids _ _ Hin Hbad (State [header] []))
    as [st' ->].
  done.
Qed.

Lemma short_homolog_line_aborts_witness :
  ("malformed" ∈ split LF (handle_response homologs_with_short_line)
   /\ length (split TAB "malformed") < 3)
  /\ raised (prepare_data homologs_with_short_line history_123_now_456 ["9606"])
      = Some IndexError
  /\ homologene_tab (prepare_data homologs_with_short_line history_123_now_456 ["9606"])
      = None.
Proof.
  assert ("malformed" ∈ split LF (handle_response homologs_with_short_line)) as Hin
    by (refine (bool_decide_unpack _ _); vm_compute; exact I).
  assert (length (split TAB "malformed") < 3) as Hbad by (vm_compute; lia).
  split; [by split|].
  exact (short_homolog_line_aborts homologs_with_short_line history_123_now_456
           ["9606"] "malformed" Hin Hbad).
Defined.

(** C3 fails as stated: the short line is not skipped; the two good lines
    around it produce no table at all, only the log note of the first. *)
Lemma short_homolog_line_not_skipped :
  prepare_data homologs_with_short_line history_123_now_456 ["9606"]
  = Run ["Gene 123 is now 456"] None (Some IndexError).
Proof. vm_compute. reflexivity. Qed.

(** C4, as the code has it: a line of the history feed (after the header)
    with fewer than three columns raises [IndexError] in
    [load_gene_history]; nothing catches it, no mapping is returned, and
    [prepare_data] ends before it logs or writes anything. *)
Theorem short_history_line_aborts
    (homolog_response history_response : string) (common_tax_ids : list string)
    (bad : string) :
  bad ∈ tail (readlines history_response) ->
  length (split TAB (strip bad)) < 3 ->
  load_gene_history history_response = Raise IndexError
  /\ prepare_data homolog_response history_response common_tax_ids
      = Run [] None (Some IndexError).
Proof.
  intros Hin Hbad.
  assert (load_gene_history history_response = Raise IndexError) as Hload
    by (unfold load_gene_history; by eapply history_loop_raises).
  split; [done|]. unfold prepare_data. by rewrite Hload.
Qed.

Lemma short_history_line_aborts_witness :
  (String.append "9606" LF ∈ tail (readlines history_with_short_line)
   /\ length (split TAB (strip (String.append "9606" LF))) < 3)
  /\ load_gene_history history_with_short_line = Raise IndexError
  /\ prepare_data homolog_5_9606_123 history_with_short_line ["9606"]
      = Run [] None (Some IndexError).
Proof.
  assert (String.append "9606" LF ∈ tail (readlines history_with_short_line)) as Hin
    by (refine (bool_decide_unpack _ _); vm_compute; exact I).
  assert (length (split TAB (strip (String.append "9606" LF))) < 3) as Hbad
    by (vm_compute; lia).
  split; [by split|].
  exact (short_history_line_aborts homolog_5_9606_123 history_with_short_line
           ["9606"] (String.append "9606" LF) Hin Hbad).
Defined.

(** C4 fails as stated: the short line is not skipped; the good lines
    before and after it give no mapping. *)
Lemma short_history_line_not_skipped :
  load_gene_history history_with_short_line = Raise IndexError.
Proof. vm_compute. reflexivity. Qed.

(** C6. Every row of the table after the header has three fields and its
    taxonomy id is one of the relevant ids passed in; a line whose taxonomy
    id is not relevant leaves the table and the log as they were. *)
Theorem homolog_rows_relevant :
  (forall (homolog_response history_response : string) (common_tax_ids : list string)
          (rows : list (list string)),
      homologene_tab (prepare_data homolog_response history_response common_tax_ids)
        = Some rows ->
      exists data,
        rows = header :: data
        /\ Forall (fun row => exists g t e, row = [g; t; e] /\ t ∈ common_tax_ids) data)
  /\ (forall (gene_history : gmap (string * string) string) (common_tax_ids : list string)
             (st : state) (line : string) (rest : list string)
             (g t e : string) (more : list string),
        split TAB line = g :: t :: e :: more ->
        t ∉ common_tax_ids ->
        homolog_loop gene_history common_tax_ids (line :: rest) st
          = homolog_loop gene_history common_tax_ids rest st).
Proof.
  split.
  - intros homolog_response history_response common_tax_ids rows. unfold prepare_data.
    destruct (load_gene_history history_response) as [gene_history|e]; [|done].
    destruct (homolog_loop gene_history common_tax_ids
                (split LF (handle_response homolog_response)) (State [header] []))
      as [st' [e|]] eqn:Hrun; [done|].
    cbn. intros [= <-].
    eapply (homolog_loop_rows gene_history common_tax_ids _ (State [header] []) [] st');
      [reflexivity|constructor|exact Hrun].
  - intros gene_history common_tax_ids st line rest g t e more Hcols Hout.
    cbn [homolog_loop]. rewrite (homolog_line_fields _ _ _ _ _ _ _ _ Hcols).
    unfold after_line. by rewrite bool_decide_false.
Qed.

Lemma homolog_rows_relevant_witness :
  homologene_tab (prepare_data homologs_two_species history_123_now_456 ["9606"])
    = Some [header; ["5"; "9606"; "456"]; ["6"; "9606"; "789"]]
  /\ exists data,
       [header; ["5"; "9606"; "456"]; ["6"; "9606"; "789"]] = header :: data
       /\ Forall (fun row => exists g t e, row = [g; t; e] /\ t ∈ ["9606"]) data.
Proof.
  assert (homologene_tab (prepare_data homologs_two_species history_123_now_456 ["9606"])
          = Some [header; ["5"; "9606"; "456"]; ["6"; "9606"; "789"]]) as Hrun
    by (vm_compute; reflexivity).
  split; [exact Hrun|].
  exact (proj1 homolog_rows_relevant homologs_two_species history_123_now_456
           ["9606"] _ Hrun).
Defined.

(** C10. The history is looked up once, at the taxonomy id and entrez id
    of the line: when it gives a new id [b] for gene [a], the row is
    appended with [b], whatever the history holds for [b] itself
    (discontinued, replaced again, or nothing); and the outcome of the line
    is the same under any history that agrees at (t, a). *)
Theorem resolution_is_single_step
    (gene_history : gmap (string * string) string) (common_tax_ids : list string)
    (st : state) (line : string) (rest : list string) (g t a b : string)
    (more : list string) :
  split TAB line = g :: t :: a :: more ->
  t ∈ common_tax_ids ->
  gene_history !! (t, a) = Some b ->
  b <> "-" ->
  homolog_loop gene_history common_tax_ids (line :: rest) st
    = homolog_loop gene_history common_tax_ids rest
        (State (homologs_out st ++ [[g; t; b]])
               (fp_log st ++ ["Gene " +:+ a +:+ " is now " +:+ b]))
  /\ (forall gene_history' : gmap (string * string) string,
        gene_history' !! (t, a) = gene_history !! (t, a) ->
        homolog_line gene_history' common_tax_ids st line
          = homolog_line gene_history common_tax_ids st line).
Proof.
  intros Hcols Hin Hlook Hb. split.
  - cbn [homolog_loop]. rewrite (homolog_line_fields _ _ _ _ _ _ _ _ Hcols).
    unfold after_line, resolve. rewrite bool_decide_true, Hlook by done.
    by rewrite bool_decide_false.
  - intros gene_history' Hagree.
    rewrite !(homolog_line_fields _ _ _ _ _ _ _ _ Hcols).
    unfold after_line, resolve. by rewrite Hagree.
Qed.

Lemma resolution_is_single_step_witness :
  (split TAB homolog_5_9606_123 = ["5"; "9606"; "123"]
   /\ "9606" ∈ ["9606"]
   /\ load_gene_history history_chain
      = Ok (<[("9606", "456") := "-"]> (<[("9606", "123") := "456"]> ∅))
   /\ (<[("9606", "456") := "-"]> (<[("9606", "123") := "456"]> ∅)
         : gmap (string * string) string) !! ("9606", "123") = Some "456"
   /\ (<[("9606", "456") := "-"]> (<[("9606", "123") := "456"]> ∅)
         : gmap (string * string) string) !! ("9606", "456") = Some "-"
   /\ "456" <> "-")
  /\ homolog_loop (<[("9606", "456") := "-"]> (<[("9606", "123") := "456"]> ∅)) ["9606"]
       [homolog_5_9606_123] (State [header] [])
     = (State [header; ["5"; "9606"; "456"]] ["Gene 123 is now 456"], None)
  /\ prepare_data homolog_5_9606_123 history_chain ["9606"]
     = Run ["Gene 123 is now 456"] (Some [header; ["5"; "9606"; "456"]]) None.
Proof.
  assert (split TAB homolog_5_9606_123 = ["5"; "9606"; "123"]) as Hcols by reflexivity.
  assert ("9606" ∈ ["9606"]) as Hin by (refine (bool_decide_unpack _ _); vm_compute; exact I).
  assert ((<[("9606", "456") := "-"]> (<[("9606", "123") := "456"]> ∅)
             : gmap (string * string) string) !! ("9606", "123") = Some "456") as Hlook
    by (vm_compute; reflexivity).
  assert ("456" <> "-") as Hb by discriminate.
  split; [|split].
  - repeat split; try done; vm_compute; reflexivity.
  - rewrite (proj1 (resolution_is_single_step _ ["9606"] (State [header] [])
                      homolog_5_9606_123 [] "5" "9606" "123" "456" [] Hcols Hin Hlook Hb)).
    reflexivity.
  - vm_compute. reflexivity.
Defined.

(** ** The marker tables *)

Section KeepFirst.
Context {A : Type} (key : A -> string * string).

Lemma keep_first_app (seen : gset (string * string)) (l1 l2 : list A) :
  keep_first key seen (l1 ++ l2)
  = keep_first key seen l1 ++ keep_first key (seen ∪ list_to_set (key <$> l1)) l2.
Proof.
  revert seen. induction l1 as [|x l1 IH]; intros seen; cbn.
  - f_equal. set_solver.
  - case_bool_decide as Hseen.
    + rewrite IH. do 2 f_equal. set_solver.
    + cbn. rewrite IH. do 3 f_equal. set_solver.
Qed.

Lemma keep_first_filter (k : string * string) (seen : gset (string * string)) (l : list A) :
  filter (fun x => key x = k) (keep_first key seen l)
  = if bool_decide (k ∈ seen) then [] else take 1 (filter (fun x => key x = k) l).
Proof.
  revert seen. induction l as [|x l IH]; intros seen; cbn [keep_first].
  - rewrite filter_nil. by destruct (bool_decide (k ∈ seen)).
  - destruct (bool_decide_reflect (key x ∈ seen)) as [Hseen|Hnew].
    + rewrite IH. case_bool_decide as Hk; [done|].
      rewrite (filter_cons_False _ x); [done|]. by intros <-.
    + destruct (decide (key x = k)) as [<-|Hne].
      * rewrite !filter_cons_True by done. rewrite IH.
        rewrite bool_decide_true by set_solver. by rewrite bool_decide_false.
      * rewrite !filter_cons_False by done. rewrite IH.
        destruct (bool_decide_reflect (k ∈ seen)) as [Hk|Hk].
        -- rewrite bool_decide_true; [done|set_solver].
        -- rewrite bool_decide_false; [done|set_solver].
Qed.

Lemma keep_first_fresh (seen : gset (string * string)) (l : list A) (x : A) :
  x ∈ keep_first key seen l -> key x ∉ seen.
Proof.
  revert seen. induction l as [|y l IH]; intros seen; cbn [keep_first].
  - by intros ?%elem_of_nil.
  - case_bool_decide as Hseen; [by apply IH|].
    intros [->|Hin%IH]%elem_of_cons; [done|set_solver].
Qed.

Lemma keep_first_NoDup (seen : gset (string * string)) (l : list A) :
  NoDup (key <$> keep_first key seen l).
Proof.
  revert seen. induction l as [|x l IH]; intros seen; cbn [keep_first].
  - constructor.
  - case_bool_decide as Hseen; [by apply IH|].
    cbn. apply NoDup_cons. split; [|by apply IH].
    intros (y & Hy & Hin%keep_first_fresh)%list_elem_of_fmap. set_solver.
Qed.

End KeepFirst.

Section CellMarkerFacts.
Import CellMarkerDB CellMarkerPairs.

Lemma index_inv {A : Type} (seq : list A) (i : nat) (x : A) :
  index seq i = Ok x -> seq !! i = Some x.
Proof. unfold index. by destruct (seq !! i); intros [= ->]. Qed.

Lemma pair_loop_keeps_first (organism : string) (columns : list string)
    (pairs : list (string * string)) :
  forall st st',
    for_each (pair_step organism columns) pairs st = Ok st' ->
    data st' = data st
               ++ keep_first entry_key (unique_rows st) (pair_entries organism columns pairs)
    /\ unique_rows st'
       = unique_rows st ∪ list_to_set (entry_key <$> pair_entries organism columns pairs).
Proof.
  induction pairs as [|[symbol entrez_id] pairs IH]; intros st st' Hrun.
  - injection Hrun as <-. cbn. rewrite app_nil_r. split; [done|set_solver].
  - cbn [for_each] in Hrun. unfold pair_step in Hrun at 1.
    change (pair_entries organism columns ((symbol, entrez_id) :: pairs))
      with ((if int_parses entrez_id
             then [pair_entry organism columns symbol entrez_id] else [])
            ++ pair_entries organism columns pairs).
    destruct (int_parses entrez_id); cbn [negb] in Hrun; [|by apply IH].
    destruct (columns !! cell_name_col) as [cell|] eqn:Hcell;
      [rewrite (index_Ok _ _ _ Hcell) in Hrun|
       rewrite index_Raise in Hrun by (by apply lookup_ge_None_1); done].
    cbn [bind] in Hrun.
    assert (entry_key (pair_entry organism columns symbol entrez_id) = (cell, entrez_id))
      as Hkey by (unfold pair_entry, column; by rewrite Hcell).
    cbn [app keep_first fmap list_fmap]. rewrite Hkey.
    destruct (bool_decide_reflect ((cell, entrez_id) ∈ unique_rows st)) as [Hseen|Hnew].
    + destruct (IH _ _ Hrun) as [-> ->]. split; [done|]. set_solver.
    + destruct (columns !! pubmed_id_col) as [pubmed|] eqn:Hpub;
        [rewrite (index_Ok _ _ _ Hpub) in Hrun|
         rewrite index_Raise in Hrun by (by apply lookup_ge_None_1); done].
      cbn [bind] in Hrun.
      assert (pair_entry organism columns symbol entrez_id
              = (organism, symbol, cell, reference_format pubmed,
                 (if int_parses (reference_format pubmed)
                  then reference_url_format pubmed else "?"), entrez_id)) as ->
        by (unfold pair_entry, column; by rewrite Hcell, Hpub).
      destruct (IH _ _ Hrun) as [-> ->]. cbn [data unique_rows].
      rewrite <- app_assoc. split; [done|]. set_solver.
Qed.

Lemma line_step_keeps_first (line : string) (st st' : state) :
  line_step st line = Ok st' ->
  data st' = data st ++ keep_first entry_key (unique_rows st) (line_entries line)
  /\ unique_rows st' = unique_rows st ∪ list_to_set (entry_key <$> line_entries line).
Proof.
  unfold line_step. intros Hrun.
  destruct (split TAB line !! species_col) as [organism|] eqn:Horg;
    [rewrite (index_Ok _ _ _ Horg) in Hrun|
     rewrite index_Raise in Hrun by (by apply lookup_ge_None_1); done].
  cbn [bind] in Hrun.
  destruct (bool_decide (organism ∈ organisms)) eqn:Horgs.
  - destruct (split TAB line !! gene_symbol_col) as [symbols|] eqn:Hsym;
      [rewrite (index_Ok _ _ _ Hsym) in Hrun|
       rewrite index_Raise in Hrun by (by apply lookup_ge_None_1); done].
    destruct (split TAB line !! entrez_id_col) as [ids|] eqn:Hids;
      [rewrite (index_Ok _ _ _ Hids) in Hrun|
       rewrite index_Raise in Hrun by (by apply lookup_ge_None_1); done].
    cbn [bind] in Hrun.
    assert (line_entries line
            = pair_entries organism (split TAB line) (zip (values symbols) (values ids)))
      as -> by (unfold line_entries, column; rewrite Horg, Hsym, Hids; simpl;
                by rewrite Horgs).
    by apply pair_loop_keeps_first.
  - assert (line_entries line = []) as ->
      by (unfold line_entries, column; rewrite Horg; simpl; by rewrite Horgs).
    injection Hrun as <-. cbn. rewrite app_nil_r. split; [done|set_solver].
Qed.

Lemma line_loop_keeps_first (lines : list string) :
  forall st st',
    for_each line_step lines st = Ok st' ->
    data st' = data st
               ++ keep_first entry_key (unique_rows st) (flat_map line_entries lines).
Proof.
  induction lines as [|line lines IH]; intros st st' Hrun.
  - injection Hrun as <-. cbn. by rewrite app_nil_r.
  - cbn [for_each] in Hrun.
    destruct (line_step st line) as [st1|e] eqn:Hline; [|done].
    destruct (line_step_keeps_first _ _ _ Hline) as [Hdata Hseen].
    rewrite (IH _ _ Hrun), Hdata, Hseen. cbn [flat_map].
    by rewrite keep_first_app, app_assoc.
Qed.

Lemma prepare_data_keeps_first (gene_description : string -> string) (response : string)
    (table : list marker_row) :
  prepare_data gene_description response = Ok table ->
  table = with_function gene_description
          <$> keep_first entry_key ∅ (all_entries response).
Proof.
  unfold prepare_data, all_entries.
  destruct (for_each line_step _ _) as [st|e] eqn:Hrun; [|done].
  cbn. intros [= <-]. by rewrite (line_loop_keeps_first _ _ _ Hrun).
Qed.

Lemma row_key_with_function (gene_description : string -> string) (entry : marker_entry) :
  row_key (with_function gene_description entry) = entry_key entry.
Proof. by destruct entry as [[[[[organism symbol] cell] ref] ref_link] entrez_id]. Qed.

Lemma filter_with_function (gene_description : string -> string) (k : string * string)
    (entries : list marker_entry) :
  filter (fun row => row_key row = k) (with_function gene_description <$> entries)
  = with_function gene_description <$> filter (fun entry => entry_key entry = k) entries.
Proof.
  induction entries as [|entry entries IH]; [done|]. cbn [fmap list_fmap].
  destruct (decide (entry_key entry = k)) as [Hk|Hk].
  - rewrite !filter_cons_True by (by rewrite ?row_key_with_function).
    cbn. by rewrite <- IH.
  - rewrite !filter_cons_False by (by rewrite ?row_key_with_function). apply IH.
Qed.

End CellMarkerFacts.

(** ** Claims on the marker tables *)

(** C2, as the code has it: the table of the CellMarker build has at most
    one row for every (Cell Type, Entrez ID) pair. (The PanglaoDB build
    drops nothing.) *)
Theorem cellmarker_keys_unique
    (gene_description : string -> string) (response : string) (table : list marker_row) :
  CellMarkerDB.prepare_data gene_description response = Ok table ->
  NoDup (row_key <$> table).
Proof.
  intros ->%prepare_data_keeps_first.
  rewrite <- list_fmap_compose.
  rewrite (list_fmap_ext _ entry_key _ (fun _ entry _ =>
             row_key_with_function gene_description entry)).
  apply keep_first_NoDup.
Qed.

Lemma cellmarker_keys_unique_witness :
  CellMarkerDB.prepare_data (fun _ => "") cellmarker_repeated
    = Ok [("Human", "CD3E", "T cell", "28775224",
           "https://www.ncbi.nlm.nih.gov/pubmed/?term=28775224", "916", "")]
  /\ NoDup (row_key <$> [("Human", "CD3E", "T cell", "28775224",
                          "https://www.ncbi.nlm.nih.gov/pubmed/?term=28775224", "916", "")]).
Proof.
  assert (CellMarkerDB.prepare_data (fun _ => "") cellmarker_repeated
          = Ok [("Human", "CD3E", "T cell", "28775224",
                 "https://www.ncbi.nlm.nih.gov/pubmed/?term=28775224", "916", "")]) as Hrun
    by (vm_compute; reflexivity).
  split; [exact Hrun|].
  exact (cellmarker_keys_unique (fun _ => "") cellmarker_repeated _ Hrun).
Defined.

Lemma panglao_repeated_table (match_gene gene_function : string -> string -> string) :
  PanglaoDB.prepare_data match_gene gene_function panglao_repeated
  = Ok [("Mouse", "Gene1", "CellA", "PanglaoDB", "https://panglaodb.se/",
         match_gene "10090" "Gene1", gene_function "10090" "Gene1");
        ("Mouse", "Gene1", "CellA", "PanglaoDB", "https://panglaodb.se/",
         match_gene "10090" "Gene1", gene_function "10090" "Gene1")].
Proof. vm_compute. reflexivity. Qed.

(** C2 fails as stated: the PanglaoDB build keeps both copies of a
    repeated line, so its table has two rows of one (Cell Type, Entrez ID)
    pair, whatever the gene matcher answers. *)
Lemma panglao_keys_repeat :
  ~ (forall (match_gene gene_function : string -> string -> string)
            (table : list marker_row),
        PanglaoDB.prepare_data match_gene gene_function panglao_repeated = Ok table ->
        NoDup (row_key <$> table)).
Proof.
  intros Hunique.
  specialize (Hunique (fun _ name => name) (fun _ _ => "") _
                (panglao_repeated_table _ _)).
  apply NoDup_cons in Hunique as [Hnotin _]. apply Hnotin. cbn. left.
Qed.

(** C7. In the CellMarker table the rows of a key are exactly the first
    entry of that key among all the entries of the feed in the order of
    the input: later entries of the key are dropped, and a key that some
    entry of the feed has gets exactly one row. *)
Theorem cellmarker_first_occurrence_wins
    (gene_description : string -> string) (response : string) (table : list marker_row)
    (k : string * string) :
  CellMarkerDB.prepare_data gene_description response = Ok table ->
  filter (fun row => row_key row = k) table
  = take 1 (filter (fun row => row_key row = k)
              (CellMarkerDB.with_function gene_description
               <$> CellMarkerPairs.all_entries response))
  /\ (k ∈ entry_key <$> CellMarkerPairs.all_entries response ->
      length (filter (fun row => row_key row = k) table) = 1).
Proof.
  intros ->%prepare_data_keeps_first.
  rewrite !filter_with_function, keep_first_filter.
  rewrite bool_decide_false by set_solver. split; [by rewrite fmap_take|].
  intros (entry & -> & Hin)%list_elem_of_fmap. rewrite length_fmap.
  assert (entry ∈ filter (fun e => entry_key e = entry_key entry)
                    (CellMarkerPairs.all_entries response)) as Hfirst
    by (by apply list_elem_of_filter).
  destruct (filter _ (CellMarkerPairs.all_entries response)); [|done].
  by apply elem_of_nil in Hfirst.
Qed.

Lemma cellmarker_first_occurrence_wins_witness :
  CellMarkerDB.prepare_data (fun _ => "") cellmarker_repeated_pairs
    = Ok [("Human", "CD3E", "T cell", "28775224",
           "https://www.ncbi.nlm.nih.gov/pubmed/?term=28775224", "916", "");
          ("Human", "CD4", "T cell", "28775224",
           "https://www.ncbi.nlm.nih.gov/pubmed/?term=28775224", "920", "");
          ("Human", "CD8A", "T cell", "28775224",
           "https://www.ncbi.nlm.nih.gov/pubmed/?term=28775224", "925", "");
          ("Mouse", "Ptprc", "T cell", "Company", "?", "19264", "")]
  /\ CellMarkerDB.with_function (fun _ => "")
     <$> CellMarkerPairs.all_entries cellmarker_repeated_pairs
     = [("Human", "CD3E", "T cell", "28775224",
         "https://www.ncbi.nlm.nih.gov/pubmed/?term=28775224", "916", "");
        ("Human", "CD4", "T cell", "28775224",
         "https://www.ncbi.nlm.nih.gov/pubmed/?term=28775224", "920", "");
        ("Human", "CD8A", "T cell", "28775224",
         "https://www.ncbi.nlm.nih.gov/pubmed/?term=28775224", "925", "");
        ("Mouse", "Cd4", "T cell", "Company", "?", "920", "");
        ("Mouse", "Cd3e", "T cell", "Company", "?", "916", "");
        ("Mouse", "Ptprc", "T cell", "Company", "?", "19264", "")]
  /\ filter (fun row => row_key row = ("T cell", "920"))
       [("Human", "CD3E", "T cell", "28775224",
         "https://www.ncbi.nlm.nih.gov/pubmed/?term=28775224", "916", "");
        ("Human", "CD4", "T cell", "28775224",
         "https://www.ncbi.nlm.nih.gov/pubmed/?term=28775224", "920", "");
        ("Human", "CD8A", "T cell", "28775224",
         "https://www.ncbi.nlm.nih.gov/pubmed/?term=28775224", "925", "");
        ("Mouse", "Ptprc", "T cell", "Company", "?", "19264", "")]
     = take 1 (filter (fun row => row_key row = ("T cell", "920"))
                 (CellMarkerDB.with_function (fun _ => "")
                  <$> CellMarkerPairs.all_entries cellmarker_repeated_pairs)).
Proof.
  assert (CellMarkerDB.prepare_data (fun _ => "") cellmarker_repeated_pairs
          = Ok [("Human", "CD3E", "T cell", "28775224",
                 "https://www.ncbi.nlm.nih.gov/pubmed/?term=28775224", "916", "");
                ("Human", "CD4", "T cell", "28775224",
                 "https://www.ncbi.nlm.nih.gov/pubmed/?term=28775224", "920", "");
                ("Human", "CD8A", "T cell", "28775224",
                 "https://www.ncbi.nlm.nih.gov/pubmed/?term=28775224", "925", "");
                ("Mouse", "Ptprc", "T cell", "Company", "?", "19264", "")]) as Hrun
    by (vm_compute; reflexivity).
  split; [exact Hrun|]. split; [vm_compute; reflexivity|].
  exact (proj1 (cellmarker_first_occurrence_wins (fun _ => "") cellmarker_repeated_pairs _
                  ("T cell", "920") Hrun)).
Defined.

(** ** The gene-info aggregator *)

Section GeneInfoFacts.
Import GeneInfo.

Lemma info_line_returns (relevant : gset string)
    (parsed : gmap string (gset (list string))) (line : string) :
  exists parsed', info_line relevant parsed line = Ok parsed'.
Proof.
  unfold info_line.
  destruct (split_nonempty TAB (strip line)) as (tax & fields & ->). cbn.
  destruct (bool_decide (tax ∈ relevant)); eauto.
Qed.

Lemma info_loop_returns (relevant : gset string) (lines : list string) :
  forall parsed, exists parsed', for_each (info_line relevant) lines parsed = Ok parsed'.
Proof.
  induction lines as [|line lines IH]; intros parsed; cbn [for_each]; [eauto|].
  destruct (info_line_returns relevant parsed line) as [parsed1 ->]. apply IH.
Qed.

Lemma handle_response_parsed (response : string) (g : globals) :
  size (gene_info g) <> 0 -> handle_response response g = Ok g.
Proof.
  intros Hsize. unfold handle_response.
  by destruct (Nat.eqb_spec (size (gene_info g)) 0).
Qed.

End GeneInfoFacts.

(** ** Claims on the gene-info aggregator *)

Import GeneInfo.

(** The feed above, parsed for the human taxonomy id alone: the line of
    taxonomy id 7 is dropped. *)
Example gene_info_feed_parsed :
  handle_response gene_info_feed (Globals {["9606"]} ∅)
  = Ok (Globals {["9606"]}
          {["9606" := {[ split TAB (gene_info_line "9606" "1" "A1BG") ]} ]}).
Proof. vm_compute. reflexivity. Qed.

(** C5. Parsing a feed twice gives what parsing it once gives: the first
    call returns, and a second call with the same feed returns the same
    module state. A call that finds [gene_info] non-empty returns at once
    with the state unchanged. *)
Theorem handle_response_idempotent (response : string) (g : globals) :
  exists g1,
    handle_response response g = Ok g1
    /\ handle_response response g1 = Ok g1
    /\ (size (gene_info g) <> 0 -> g1 = g).
Proof.
  unfold handle_response at 1.
  destruct (Nat.eqb_spec (size (gene_info g)) 0) as [Hempty|Hparsed]; cbn [negb].
  - destruct (info_loop_returns (relevant_taxonomy_ids g) (tail (readlines response)) ∅)
      as [parsed Hparse].
    rewrite Hparse. cbn [bind]. eexists. split; [done|]. split; [|done].
    unfold handle_response. cbn [gene_info relevant_taxonomy_ids].
    destruct (Nat.eqb (size parsed) 0); cbn [negb]; [|done]. by rewrite Hparse.
  - exists g. split; [done|]. split; [|done]. by apply handle_response_parsed.
Qed.

(** C9. Once [gene_info] is non-empty, a call of [handle_response] returns
    the module state as it was, whatever response it is given, and so does
    any sequence of calls. *)
Theorem parse_is_fixed_once_nonempty (g : globals) :
  size (gene_info g) <> 0 ->
  (forall response : string, handle_response response g = Ok g)
  /\ (forall responses : list string,
        for_each (fun g' response => handle_response response g') responses g = Ok g).
Proof.
  intros Hsize. split.
  - intros response. by apply handle_response_parsed.
  - intros responses. induction responses as [|response responses IH]; [done|].
    cbn [for_each]. by rewrite handle_response_parsed.
Qed.

Lemma parse_is_fixed_once_nonempty_witness :
  exists g,
    handle_response gene_info_feed (Globals {["9606"]} ∅) = Ok g
    /\ size (gene_info g) <> 0
    /\ handle_response gene_info_feed' g = Ok g
    /\ handle_response gene_info_feed' (Globals {["9606"]} ∅) <> Ok g.
Proof.
  destruct (handle_response gene_info_feed (Globals {["9606"]} ∅)) as [g|e] eqn:Hrun;
    [|vm_compute in Hrun; discriminate].
  exists g.
  assert (size (gene_info g) <> 0) as Hsize
    by (vm_compute in Hrun; injection Hrun as <-; vm_compute; discriminate).
  split; [done|]. split; [done|]. split.
  - exact (proj1 (parse_is_fixed_once_nonempty g Hsize) gene_info_feed').
  - vm_compute in Hrun. injection Hrun as <-. vm_compute. discriminate.
Defined.

(** C8, as the code has it: for a record of at least fifteen fields the
    values to insert are built, and a dash becomes NULL in nine columns
    (description, locus tag, chromosome, map location, type of gene, the
    three nomenclature columns and other designations); the taxonomy id,
    the gene id, the symbol and the modification date are stored as they
    are read, a dash included. *)
Theorem dash_is_null_in_nine_columns
    (species_name : string) (synonyms_json db_refs_json : string -> string)
    (gene : list string) :
  15 <= length gene ->
  exists r,
    insert_values species_name synonyms_json db_refs_json gene = Ok r
    /\ Forall (fun column : nat * (row -> option string) =>
                 exists raw, gene !! column.1 = Some raw
                             /\ (raw = "-" -> column.2 r = None)
                             /\ (raw <> "-" -> column.2 r = Some raw))
         [(description, row_description); (locus_tag, row_locus_tag);
          (chromosome, row_chromosome); (map_location, row_map_location);
          (type_of_gene, row_type_of_gene);
          (symbol_from_nomenclature_authority, row_symbol_from_nomenclature_authority);
          (full_name_from_nomenclature_authority,
           row_full_name_from_nomenclature_authority);
          (nomenclature_status, row_nomenclature_status);
          (other_designations, row_other_designations)]
    /\ Forall (fun column : nat * (row -> option string) =>
                 exists raw, gene !! column.1 = Some raw /\ column.2 r = Some raw)
         [(tax_id, row_tax_id); (gene_id, row_gene_id); (symbol, row_symbol);
          (modification_date, row_modification_date)].
Proof.
  intros Hlen.
  do 15 (destruct gene as [|? gene]; [cbn in Hlen; lia|]).
  eexists. split; [reflexivity|]. split.
  - repeat constructor; cbn; (eexists; split; [reflexivity|]);
      unfold unless_dash; split; intros Hraw.
    all: try (by rewrite bool_decide_false by (by intros []; subst)).
    all: try (by rewrite bool_decide_true).
  - repeat constructor; cbn; by eexists.
Qed.

Lemma dash_is_null_in_nine_columns_witness :
  15 <= length gene_with_dashes
  /\ exists r,
       insert_values "Homo sapiens" (fun s => s) (fun s => s) gene_with_dashes = Ok r
       /\ row_description r = None /\ row_symbol r = Some "-".
Proof.
  assert (15 <= length gene_with_dashes) as Hlen by (vm_compute; lia).
  split; [exact Hlen|].
  destruct (dash_is_null_in_nine_columns "Homo sapiens" (fun s => s) (fun s => s)
              gene_with_dashes Hlen) as (r & Hrun & Hnull & Hkept).
  exists r. split; [exact Hrun|].
  vm_compute in Hrun. injection Hrun as <-. by split.
Defined.

(** C8 fails as stated: a dash in the symbol and in the modification date
    is stored as a dash, not as NULL. *)
Lemma dash_symbol_is_stored :
  gene_with_dashes !! symbol = Some "-"
  /\ gene_with_dashes !! modification_date = Some "-"
  /\ exists r,
       insert_values "Homo sapiens" (fun s => s) (fun s => s) gene_with_dashes = Ok r
       /\ row_symbol r = Some "-"
       /\ row_modification_date r = Some "-".
Proof. repeat split. eexists. repeat split. Qed.

(** * Further properties of the builders *)

(** ** The gene history *)

Section HistoryLookup.
Import HomologGenes.

Lemma history_line_fields (gene_history : gmap (string * string) string)
    (line t c d : string) (more : list string) :
  split TAB (strip line) = t :: c :: d :: more ->
  history_line gene_history line = Ok (<[(t, d) := c]> gene_history).
Proof. intros Hinfo. unfold history_line. by rewrite Hinfo. Qed.

Lemma history_line_cases (gene_history : gmap (string * string) string) (line : string) :
  (length (split TAB (strip line)) < 3
   /\ history_line gene_history line = Raise IndexError)
  \/ exists t c d more,
       split TAB (strip line) = t :: c :: d :: more
       /\ history_line gene_history line = Ok (<[(t, d) := c]> gene_history).
Proof.
  destruct (split TAB (strip line)) as [|t [|c [|d more]]] eqn:Hinfo;
    try (left; split; [cbn; lia|apply history_line_short; rewrite Hinfo; cbn; lia]).
  right. exists t, c, d, more. split; [done|]. by eapply history_line_fields.
Qed.

Lemma history_loop_app (lines1 lines2 : list string) :
  forall gene_history,
    history_loop (lines1 ++ lines2) gene_history
    = match history_loop lines1 gene_history with
      | Ok gene_history' => history_loop lines2 gene_history'
      | Raise e => Raise e
      end.
Proof.
  induction lines1 as [|line lines1 IH]; intros gene_history; [done|].
  cbn [app history_loop]. destruct (history_line gene_history line); cbn [bind]; [|done].
  apply IH.
Qed.

Lemma history_loop_returns (lines : list string) :
  Forall (fun line => 3 <= length (split TAB (strip line))) lines ->
  forall gene_history, exists gene_history', history_loop lines gene_history = Ok gene_history'.
Proof.
  induction 1 as [|line lines Hline _ IH]; intros gene_history; cbn [history_loop]; [eauto|].
  destruct (history_line_cases gene_history line) as [[Hshort _]|(t & c & d & more & _ & ->)];
    [lia|]. apply IH.
Qed.

Lemma history_loop_lookup (lines : list string) (k : string * string) (c : string) :
  forall gene_history gene_history',
    history_loop lines gene_history = Ok gene_history' ->
    gene_history' !! k = Some c ->
    gene_history !! k = Some c
    \/ exists line more, line ∈ lines /\ split TAB (strip line) = k.1 :: c :: k.2 :: more.
Proof.
  induction lines as [|line lines IH]; intros gene_history gene_history' Hrun Hlook.
  - injection Hrun as <-. by left.
  - cbn [history_loop] in Hrun.
    destruct (history_line_cases gene_history line)
      as [[_ Hr]|(t & c' & d & more & Hinfo & Hr)]; rewrite Hr in Hrun; [done|].
    cbn [bind] in Hrun.
    destruct (IH _ _ Hrun Hlook) as [Hhere|(later & more' & Hin & Hlater)].
    + apply lookup_insert_Some in Hhere as [[<- <-]|[_ Hold]]; [|by left].
      right. exists line, more. split; [by left|done].
    + right. exists later, more'. split; [by right|done].
Qed.

Lemma history_loop_keeps (lines : list string) (k : string * string) :
  (forall line c more, line ∈ lines -> split TAB (strip line) <> k.1 :: c :: k.2 :: more) ->
  forall gene_history gene_history',
    history_loop lines gene_history = Ok gene_history' ->
    gene_history' !! k = gene_history !! k.
Proof.
  induction lines as [|line lines IH]; intros Hfree gene_history gene_history' Hrun.
  - by injection Hrun as <-.
  - cbn [history_loop] in Hrun.
    destruct (history_line_cases gene_history line)
      as [[_ Hr]|(t & c' & d & more & Hinfo & Hr)]; rewrite Hr in Hrun; [done|].
    cbn [bind] in Hrun. rewrite (IH (fun l c more Hin => Hfree l c more (list_elem_of_further _ _ _ Hin)) _ _ Hrun).
    apply lookup_insert_ne. intros <-. by apply (Hfree line c' more); [left|].
Qed.

Lemma history_loop_grows (lines : list string) (k : string * string) :
  forall gene_history gene_history',
    history_loop lines gene_history = Ok gene_history' ->
    is_Some (gene_history !! k) -> is_Some (gene_history' !! k).
Proof.
  induction lines as [|line lines IH]; intros gene_history gene_history' Hrun Hsome.
  - by injection Hrun as <-.
  - cbn [history_loop] in Hrun.
    destruct (history_line_cases gene_history line)
      as [[_ Hr]|(t & c' & d & more & Hinfo & Hr)]; rewrite Hr in Hrun; [done|].
    cbn [bind] in Hrun. apply (IH _ _ Hrun). apply lookup_insert_is_Some'. by right.
Qed.

Lemma history_loop_sets (lines : list string) (k : string * string)
    (line c : string) (more : list string) :
  line ∈ lines -> split TAB (strip line) = k.1 :: c :: k.2 :: more ->
  forall gene_history gene_history',
    history_loop lines gene_history = Ok gene_history' -> is_Some (gene_history' !! k).
Proof.
  intros Hin Hinfo. induction lines as [|first lines IH]; [by apply elem_of_nil in Hin|].
  intros gene_history gene_history' Hrun. cbn [history_loop] in Hrun.
  apply elem_of_cons in Hin as [<-|Hin].
  - rewrite (history_line_fields _ _ _ _ _ _ Hinfo) in Hrun. cbn [bind] in Hrun.
    apply (history_loop_grows _ _ _ _ Hrun). apply lookup_insert_is_Some'. left.
    by destruct k.
  - destruct (history_line gene_history first) as [gene_history1|e]; [|done].
    by apply (IH Hin _ _ Hrun).
Qed.

End HistoryLookup.

(** The history holds, for a pair (taxonomy id, discontinued id), the
    current id of the last line of the feed that has the pair: a later
    line overwrites an earlier one. *)
Theorem history_last_line_wins
    (response : string) (gene_history : gmap (string * string) string)
    (pre post : list string) (line t c d : string) (more : list string) :
  HomologGenes.load_gene_history response = Ok gene_history ->
  tail (readlines response) = pre ++ line :: post ->
  split TAB (strip line) = t :: c :: d :: more ->
  (forall later c' more', later ∈ post ->
     split TAB (strip later) <> t :: c' :: d :: more') ->
  gene_history !! (t, d) = Some c.
Proof.
  unfold HomologGenes.load_gene_history. intros Hrun Hlines Hinfo Hfree.
  rewrite Hlines, history_loop_app in Hrun.
  destruct (HomologGenes.history_loop pre ∅) as [gene_history1|e]; [|done].
  cbn [HomologGenes.history_loop] in Hrun.
  rewrite (history_line_fields _ _ _ _ _ _ Hinfo) in Hrun. cbn [bind] in Hrun.
  rewrite (history_loop_keeps post (t, d) Hfree _ _ Hrun).
  apply lookup_insert_eq.
Qed.

(** A history feed that replaces 123 by 456 and, on a later line, by 789. *)
Lemma history_last_line_wins_witness :
  HomologGenes.load_gene_history
    (text [tsv ["#tax_id"; "GeneID"; "Discontinued_GeneID"];
           tsv ["9606"; "456"; "123"]; tsv ["9606"; "789"; "123"]; ""])
    = Ok (<[("9606", "123") := "789"]> ∅)
  /\ (<[("9606", "123") := "789"]> ∅ : gmap (string * string) string) !! ("9606", "123")
     = Some "789".
Proof.
  assert (HomologGenes.load_gene_history
            (text [tsv ["#tax_id"; "GeneID"; "Discontinued_GeneID"];
                   tsv ["9606"; "456"; "123"]; tsv ["9606"; "789"; "123"]; ""])
          = Ok (<[("9606", "123") := "789"]> ∅)) as Hrun by (vm_compute; reflexivity).
  split; [exact Hrun|].
  refine (history_last_line_wins _ _ [String.append (tsv ["9606"; "456"; "123"]) LF]
            [] (String.append (tsv ["9606"; "789"; "123"]) LF) "9606" "789" "123" []
            Hrun _ _ _).
  - vm_compute. reflexivity.
  - vm_compute. reflexivity.
  - intros later c' more' Hin. by apply elem_of_nil in Hin.
Defined.

(** The history has no entry for a pair exactly when no line of the feed
    (after the header) has the pair in its first and third fields; such a
    gene resolves as unknown. *)
Theorem history_lookup_absent
    (response : string) (gene_history : gmap (string * string) string) (t d : string) :
  HomologGenes.load_gene_history response = Ok gene_history ->
  (gene_history !! (t, d) = None
   <-> forall line c more,
         line ∈ tail (readlines response) ->
         split TAB (strip line) <> t :: c :: d :: more)
  /\ (gene_history !! (t, d) = None
      <-> HomologGenes.resolve gene_history t d = HomologGenes.Unknown).
Proof.
  unfold HomologGenes.load_gene_history. intros Hrun. split; [split|].
  - intros Hnone line c more Hin Hinfo.
    destruct (history_loop_sets _ (t, d) line c more Hin Hinfo _ _ Hrun) as [c' Hsome].
    congruence.
  - intros Hfree. by rewrite (history_loop_keeps _ (t, d) Hfree _ _ Hrun).
  - unfold HomologGenes.resolve. destruct (gene_history !! (t, d)) as [status|]; [|done].
    split; [done|]. by destruct (bool_decide (status = "-")).
Qed.

Lemma history_lookup_absent_witness :
  HomologGenes.load_gene_history history_123_now_456
    = Ok (<[("9606", "123") := "456"]> ∅)
  /\ HomologGenes.resolve (<[("9606", "123") := "456"]> ∅) "9606" "456"
     = HomologGenes.Unknown.
Proof.
  assert (HomologGenes.load_gene_history history_123_now_456
          = Ok (<[("9606", "123") := "456"]> ∅)) as Hrun by (vm_compute; reflexivity).
  split; [exact Hrun|].
  apply (proj2 (history_lookup_absent _ _ "9606" "456" Hrun)).
  vm_compute. reflexivity.
Defined.

(** [load_gene_history] returns a mapping exactly when every line after
    the header has at least three tab-separated fields once stripped; a
    feed of the header alone, or an empty feed, gives the empty mapping. *)
Theorem load_gene_history_returns_iff (response : string) :
  ((exists gene_history, HomologGenes.load_gene_history response = Ok gene_history)
   <-> Forall (fun line => 3 <= length (split TAB (strip line))) (tail (readlines response)))
  /\ (tail (readlines response) = [] -> HomologGenes.load_gene_history response = Ok ∅).
Proof.
  unfold HomologGenes.load_gene_history. split; [split|].
  - intros [gene_history Hrun]. apply Forall_forall. intros line Hin.
    destruct (decide (3 <= length (split TAB (strip line)))) as [|Hshort]; [done|].
    rewrite (history_loop_raises _ line Hin) in Hrun by lia. done.
  - intros Hall. by apply history_loop_returns.
  - by intros ->.
Qed.

(** ** White space around a response *)

Section Strip.

Lemma append_String (c : ascii) (s t : string) : String c s +:+ t = String c (s +:+ t).
Proof. reflexivity. Qed.

Lemma append_empty (s : string) : s +:+ EmptyString = s.
Proof. induction s as [|c s IH]; [done|]. by rewrite append_String, IH. Qed.

Lemma lstrip_all_space (w s : string) :
  all_space w = true -> lstrip (w +:+ s) = lstrip s.
Proof.
  induction w as [|c w IH]; [done|]. rewrite append_String. cbn -[isspace].
  intros [Hc Hw]%andb_prop. rewrite Hc. by apply IH.
Qed.

Lemma rstrip_all_space (w : string) : all_space w = true -> rstrip w = EmptyString.
Proof.
  induction w as [|c w IH]; [done|]. cbn -[isspace].
  intros [Hc Hw]%andb_prop. by rewrite (IH Hw), Hc.
Qed.

Lemma rstrip_app_all_space (s w : string) :
  all_space w = true -> rstrip (s +:+ w) = rstrip s.
Proof.
  intros Hw. induction s as [|c s IH]; [by apply rstrip_all_space|].
  rewrite append_String. cbn -[isspace]. by rewrite IH.
Qed.

Lemma strip_app_all_space (s w : string) :
  all_space w = true -> strip (s +:+ w) = strip s.
Proof.
  intros Hw. unfold strip. induction s as [|c s IH].
  - change (EmptyString +:+ w) with w.
    rewrite <- (append_empty w) at 1. by rewrite lstrip_all_space.
  - rewrite append_String. cbn -[isspace rstrip]. destruct (isspace c); [done|].
    rewrite <- append_String. by apply rstrip_app_all_space.
Qed.

Lemma strip_around (w1 s w2 : string) :
  all_space w1 = true -> all_space w2 = true -> strip (w1 +:+ s +:+ w2) = strip s.
Proof.
  intros Hw1 Hw2. unfold strip at 1. rewrite lstrip_all_space by done.
  by apply strip_app_all_space.
Qed.

Lemma strip_all_space (w : string) : all_space w = true -> strip w = EmptyString.
Proof.
  intros Hw. unfold strip. rewrite <- (append_empty w). by rewrite lstrip_all_space.
Qed.

End Strip.

(** White space (blanks, tabs, line ends) before and after a response
    changes nothing: each of the three builds gives what it gives for
    the response without it. *)
Theorem white_space_around_response_ignored (w1 response w2 : string) :
  all_space w1 = true ->
  all_space w2 = true ->
  (forall history_response common_tax_ids,
      HomologGenes.prepare_data (w1 +:+ response +:+ w2) history_response common_tax_ids
      = HomologGenes.prepare_data response history_response common_tax_ids)
  /\ (forall match_gene gene_function,
        PanglaoDB.prepare_data match_gene gene_function (w1 +:+ response +:+ w2)
        = PanglaoDB.prepare_data match_gene gene_function response)
  /\ (forall gene_description,
        CellMarkerDB.prepare_data gene_description (w1 +:+ response +:+ w2)
        = CellMarkerDB.prepare_data gene_description response).
Proof.
  intros Hw1 Hw2. repeat split; intros;
    unfold HomologGenes.prepare_data, PanglaoDB.prepare_data, CellMarkerDB.prepare_data,
      HomologGenes.handle_response, PanglaoDB.handle_response, CellMarkerDB.handle_response;
    by rewrite strip_around.
Qed.

Lemma white_space_around_response_ignored_witness :
  (all_space LF = true /\ all_space (LF +:+ LF) = true)
  /\ HomologGenes.prepare_data (LF +:+ homologs_two_species +:+ LF +:+ LF)
       history_123_now_456 ["9606"]
     = HomologGenes.prepare_data homologs_two_species history_123_now_456 ["9606"]
  /\ HomologGenes.homologene_tab
       (HomologGenes.prepare_data homologs_two_species history_123_now_456 ["9606"])
     = Some [HomologGenes.header; ["5"; "9606"; "456"]; ["6"; "9606"; "789"]].
Proof.
  assert (all_space LF = true) as Hw1 by reflexivity.
  assert (all_space (LF +:+ LF) = true) as Hw2 by reflexivity.
  split; [by split|]. split; [|vm_compute; reflexivity].
  exact (proj1 (white_space_around_response_ignored LF homologs_two_species (LF +:+ LF)
                  Hw1 Hw2) history_123_now_456 ["9606"]).
Defined.

(** ** The homolog build as a whole *)

Section HomologRuns.
Import HomologGenes.

Variable gene_history : gmap (string * string) string.
Variable common_tax_ids : list string.

Lemma homolog_loop_returns (lines : list string) :
  Forall (fun line => 3 <= length (split TAB line)) lines ->
  forall st, exists st', homolog_loop gene_history common_tax_ids lines st = (st', None).
Proof.
  induction 1 as [|line lines Hline _ IH]; intros st; cbn [homolog_loop]; [eauto|].
  destruct (split TAB line) as [|g [|t [|e more]]] eqn:Hcols; cbn in Hline; try lia.
  rewrite (homolog_line_fields _ _ _ _ _ _ _ _ Hcols). apply IH.
Qed.

Lemma after_line_order (st : state) (g t e : string) :
  exists rows,
    homologs_out (after_line gene_history common_tax_ids st g t e) = homologs_out st ++ rows
    /\ take 2 <$> rows `sublist_of` [[g; t]].
Proof.
  unfold after_line. destruct (bool_decide (t ∈ common_tax_ids)).
  - destruct (resolve gene_history t e); cbn [homologs_out].
    + eexists. split; [done|]. by apply sublist_skip.
    + exists []. rewrite app_nil_r. split; [done|]. apply sublist_nil_l.
    + eexists. split; [done|]. by apply sublist_skip.
  - exists []. rewrite app_nil_r. split; [done|]. apply sublist_nil_l.
Qed.

Lemma homolog_loop_order (lines : list string) :
  forall st st',
    homolog_loop gene_history common_tax_ids lines st = (st', None) ->
    exists rows,
      homologs_out st' = homologs_out st ++ rows
      /\ take 2 <$> rows `sublist_of` (fun line => take 2 (split TAB line)) <$> lines.
Proof.
  induction lines as [|line lines IH]; intros st st' Hrun; cbn [homolog_loop] in Hrun.
  - injection Hrun as <-. exists []. by rewrite app_nil_r.
  - destruct (split TAB line) as [|g [|t [|e more]]] eqn:Hcols;
      try (rewrite homolog_line_short in Hrun by (rewrite Hcols; cbn; lia); done).
    rewrite (homolog_line_fields _ _ _ _ _ _ _ _ Hcols) in Hrun.
    destruct (after_line_order st g t e) as (rows1 & Hout1 & Hsub1).
    destruct (IH _ _ Hrun) as (rows2 & Hout2 & Hsub2).
    exists (rows1 ++ rows2). rewrite Hout2, Hout1, app_assoc. split; [done|].
    rewrite fmap_app, fmap_cons, Hcols.
    change (take 2 (g :: t :: e :: more)) with [g; t].
    by apply (sublist_app _ [_]).
Qed.

Lemma after_line_row (st : state) (line g t e : string) (more : list string) :
  split TAB line = g :: t :: e :: more ->
  homologs_out (after_line gene_history common_tax_ids st g t e)
  = homologs_out st ++ option_list (homolog_row gene_history common_tax_ids line).
Proof.
  intros Hcols. unfold after_line, homolog_row, resolve. rewrite Hcols.
  destruct (bool_decide (t ∈ common_tax_ids)); [|by rewrite app_nil_r].
  destruct (gene_history !! (t, e)) as [new_id|]; [|done].
  destruct (bool_decide (new_id = "-")); [|done]. by rewrite app_nil_r.
Qed.

Lemma homolog_loop_omap (lines : list string) :
  forall st st',
    homolog_loop gene_history common_tax_ids lines st = (st', None) ->
    homologs_out st'
    = homologs_out st ++ omap (homolog_row gene_history common_tax_ids) lines.
Proof.
  induction lines as [|line lines IH]; intros st st' Hrun; cbn [homolog_loop] in Hrun.
  - injection Hrun as <-. by rewrite app_nil_r.
  - destruct (split TAB line) as [|g [|t [|e more]]] eqn:Hcols;
      try (rewrite homolog_line_short in Hrun by (rewrite Hcols; cbn; lia); done).
    rewrite (homolog_line_fields _ _ _ _ _ _ _ _ Hcols) in Hrun.
    rewrite (IH _ _ Hrun), (after_line_row _ _ _ _ _ _ Hcols), <- app_assoc. f_equal.
    cbn [omap list_omap]. by destruct (homolog_row gene_history common_tax_ids line).
Qed.

End HomologRuns.

(** Once the history is loaded, the homolog build runs to its end exactly
    when every line of the stripped feed has at least three tab-separated
    fields, and then it writes the table. *)
Theorem homolog_build_completes_iff
    (homolog_response history_response : string) (common_tax_ids : list string)
    (gene_history : gmap (string * string) string) :
  HomologGenes.load_gene_history history_response = Ok gene_history ->
  (HomologGenes.raised
     (HomologGenes.prepare_data homolog_response history_response common_tax_ids) = None
   <-> Forall (fun line => 3 <= length (split TAB line))
         (split LF (HomologGenes.handle_response homolog_response)))
  /\ (HomologGenes.raised
        (HomologGenes.prepare_data homolog_response history_response common_tax_ids) = None
      -> is_Some (HomologGenes.homologene_tab
                    (HomologGenes.prepare_data homolog_response history_response
                       common_tax_ids))).
Proof.
  intros Hload. unfold HomologGenes.prepare_data. rewrite Hload. split; [split|].
  - intros Hdone. apply Forall_forall. intros line Hin.
    destruct (decide (3 <= length (split TAB line))) as [|Hshort]; [done|].
    destruct (homolog_loop_raises gene_history common_tax_ids _ line Hin ltac:(lia)
                (HomologGenes.State [HomologGenes.header] [])) as [st' Hrun].
    by rewrite Hrun in Hdone.
  - intros Hall.
    destruct (homolog_loop_returns gene_history common_tax_ids _ Hall
                (HomologGenes.State [HomologGenes.header] [])) as [st' ->].
    done.
  - destruct (HomologGenes.homolog_loop _ _ _ _) as [st' [e|]]; [done|]. by eexists.
Qed.

Lemma homolog_build_completes_iff_witness :
  HomologGenes.load_gene_history history_123_now_456 = Ok (<[("9606", "123") := "456"]> ∅)
  /\ HomologGenes.raised
       (HomologGenes.prepare_data homologs_two_species history_123_now_456 ["9606"]) = None
  /\ HomologGenes.raised
       (HomologGenes.prepare_data homologs_with_short_line history_123_now_456 ["9606"])
     <> None.
Proof.
  assert (HomologGenes.load_gene_history history_123_now_456
          = Ok (<[("9606", "123") := "456"]> ∅)) as Hload by (vm_compute; reflexivity).
  split; [exact Hload|]. split.
  - apply (proj1 (homolog_build_completes_iff homologs_two_species _ ["9606"] _ Hload)).
    vm_compute. repeat constructor.
  - vm_compute. discriminate.
Defined.

(** A response of white space only (an empty download included) does not
    give a table of the header alone: its one empty line has a single
    field, so the build ends with [IndexError] and writes nothing. *)
Theorem blank_homolog_feed_aborts
    (homolog_response history_response : string) (common_tax_ids : list string) :
  all_space homolog_response = true ->
  HomologGenes.raised
    (HomologGenes.prepare_data homolog_response history_response common_tax_ids)
    = Some IndexError
  /\ HomologGenes.homologene_tab
       (HomologGenes.prepare_data homolog_response history_response common_tax_ids)
     = None.
Proof.
  intros Hblank. unfold HomologGenes.prepare_data, HomologGenes.handle_response.
  rewrite (strip_all_space _ Hblank).
  destruct (HomologGenes.load_gene_history history_response) as [gene_history|[]]; done.
Qed.

Lemma blank_homolog_feed_aborts_witness :
  all_space EmptyString = true
  /\ HomologGenes.raised (HomologGenes.prepare_data EmptyString history_123_now_456 ["9606"])
     = Some IndexError
  /\ HomologGenes.homologene_tab
       (HomologGenes.prepare_data EmptyString history_123_now_456 ["9606"])
     = None.
Proof.
  assert (all_space EmptyString = true) as Hblank by reflexivity.
  split; [exact Hblank|].
  exact (blank_homolog_feed_aborts EmptyString history_123_now_456 ["9606"] Hblank).
Defined.

(** The table is the header followed by the rows of the feed's lines, one
    after the other in the order of the feed: a line gives at most one row
    (its group id, its taxonomy id, and its entrez id or the id the
    history has for it), and gives none when its taxonomy id is not
    relevant or the history has a dash for its gene. So no row is moved,
    repeated or invented; in particular the (group id, taxonomy id) pairs
    of the rows are a subsequence of those of the lines. *)
Theorem homolog_rows_in_feed_order
    (homolog_response history_response : string) (common_tax_ids : list string)
    (gene_history : gmap (string * string) string) (rows : list (list string)) :
  HomologGenes.load_gene_history history_response = Ok gene_history ->
  HomologGenes.homologene_tab
    (HomologGenes.prepare_data homolog_response history_response common_tax_ids)
    = Some rows ->
  rows
  = HomologGenes.header
    :: omap (homolog_row gene_history common_tax_ids)
         (split LF (HomologGenes.handle_response homolog_response))
  /\ take 2 <$> tail rows
     `sublist_of` (fun line => take 2 (split TAB line))
                  <$> split LF (HomologGenes.handle_response homolog_response).
Proof.
  unfold HomologGenes.prepare_data. intros ->.
  destruct (HomologGenes.homolog_loop _ _ _ _) as [st' [e|]] eqn:Hrun; [done|].
  cbn. intros [= <-].
  destruct (homolog_loop_order _ _ _ _ _ Hrun) as (data & Hout & Hsub).
  split.
  - by rewrite (homolog_loop_omap _ _ _ _ _ Hrun).
  - rewrite Hout. by cbn.
Qed.

(** Four lines of one group: the first is rewritten, the second is
    discontinued, the third is of another species, the fourth is kept. *)
Lemma homolog_rows_in_feed_order_witness :
  (HomologGenes.load_gene_history history_123_and_555
   = Ok (<[("9606", "555") := "-"]> (<[("9606", "123") := "456"]> ∅))
   /\ HomologGenes.homologene_tab
        (HomologGenes.prepare_data homologs_one_group history_123_and_555 ["9606"])
      = Some [HomologGenes.header; ["5"; "9606"; "456"]; ["5"; "9606"; "789"]])
  /\ [HomologGenes.header; ["5"; "9606"; "456"]; ["5"; "9606"; "789"]]
     = HomologGenes.header
       :: omap (homolog_row (<[("9606", "555") := "-"]> (<[("9606", "123") := "456"]> ∅))
                  ["9606"])
            (split LF (HomologGenes.handle_response homologs_one_group)).
Proof.
  assert (HomologGenes.load_gene_history history_123_and_555
          = Ok (<[("9606", "555") := "-"]> (<[("9606", "123") := "456"]> ∅))) as Hload
    by (vm_compute; reflexivity).
  assert (HomologGenes.homologene_tab
            (HomologGenes.prepare_data homologs_one_group history_123_and_555 ["9606"])
          = Some [HomologGenes.header; ["5"; "9606"; "456"]; ["5"; "9606"; "789"]]) as Hrun
    by (vm_compute; reflexivity).
  split; [by split|].
  exact (proj1 (homolog_rows_in_feed_order homologs_one_group history_123_and_555
                  ["9606"] _ _ Hload Hrun)).
Defined.

(** ** The PanglaoDB table *)

Section PanglaoFacts.
Import PanglaoDB.

Variables code organism : string.
Hypothesis code_organism : organism_mapper !! code = Some organism.
Hypothesis code_only : forall org, organism_mapper !! org = Some organism -> org = code.

Lemma org_loop_entries (columns : list string) (orgs : list string) :
  forall genes genes',
    for_each (org_step columns) orgs genes = Ok genes' ->
    default [] (genes' !! organism)
    = default [] (genes !! organism)
      ++ match columns with
         | _ :: name :: cell :: _ =>
             (fun _ => (organism, name, cell, reference, reference_url))
             <$> filter (fun org => org = code) orgs
         | _ => []
         end.
Proof.
  induction orgs as [|org orgs IH]; intros genes genes' Hrun; cbn [for_each] in Hrun.
  - injection Hrun as <-. rewrite filter_nil. destruct columns as [|? [|? [|? ?]]];
      by rewrite app_nil_r.
  - unfold org_step in Hrun at 1.
    destruct (organism_mapper !! org) as [organism'|] eqn:Horg.
    + destruct columns as [|orgs0 [|name [|cell more]]]; try done.
      cbn [index lookup list_lookup bind gene_symbol cell_type] in Hrun.
      rewrite (IH _ _ Hrun). destruct (decide (organism' = organism)) as [->|Hother].
      * rewrite (code_only _ Horg), filter_cons_True by done.
        rewrite lookup_insert_eq, fmap_cons. simpl. by rewrite <- app_assoc.
      * rewrite lookup_insert_ne by done.
        rewrite filter_cons_False; [done|]. intros ->. congruence.
    + rewrite (IH _ _ Hrun). rewrite filter_cons_False; [done|]. intros ->. congruence.
Qed.

Lemma line_loop_entries (lines : list string) :
  forall genes genes',
    for_each line_step lines genes = Ok genes' ->
    default [] (genes' !! organism)
    = default [] (genes !! organism) ++ panglao_entries code organism lines.
Proof.
  induction lines as [|line lines IH]; intros genes genes' Hrun; cbn [for_each] in Hrun.
  - injection Hrun as <-. cbn. by rewrite app_nil_r.
  - destruct (line_step genes line) as [genes1|e] eqn:Hline; [|done].
    assert (default [] (genes1 !! organism)
            = default [] (genes !! organism) ++ panglao_entries code organism [line])
      as Hfirst.
    { unfold line_step in Hline. unfold panglao_entries. cbn [flat_map].
      rewrite app_nil_r.
      destruct (split TAB line) as [|orgs columns] eqn:Hcols; [done|].
      cbn [index lookup list_lookup bind species] in Hline.
      exact (org_loop_entries _ _ _ _ Hline). }
    rewrite (IH _ _ Hrun), Hfirst, <- app_assoc. f_equal.
    unfold panglao_entries. cbn [flat_map]. by rewrite app_nil_r.
Qed.

End PanglaoFacts.

(** The PanglaoDB table is the mouse rows followed by the human rows;
    the rows of an organism are, in the order of the feed, one row for
    every occurrence of its code (Mm, Hs) in the first field of a line,
    with the line's second and third fields as Name and Cell Type, the
    fixed reference and URL, and the matcher's Entrez ID and Function for
    that name. Other codes give no row. *)
Theorem panglao_table_by_organism
    (match_gene gene_function : string -> string -> string) (response : string)
    (table : list marker_row) :
  PanglaoDB.prepare_data match_gene gene_function response = Ok table ->
  table
  = (panglao_row match_gene gene_function "10090"
     <$> panglao_entries "Mm" "Mouse" (split LF (PanglaoDB.handle_response response)))
    ++ (panglao_row match_gene gene_function "9606"
        <$> panglao_entries "Hs" "Human" (split LF (PanglaoDB.handle_response response))).
Proof.
  unfold PanglaoDB.prepare_data.
  destruct (for_each PanglaoDB.line_step _ ∅) as [genes|e] eqn:Hrun; [|done].
  cbn [bind]. intros [= <-]. unfold PanglaoDB.organism_table.
  assert (forall org, PanglaoDB.organism_mapper !! org = Some "Mouse" -> org = "Mm") as Hmouse.
  { intros org Hlook. unfold PanglaoDB.organism_mapper in Hlook.
    apply lookup_insert_Some in Hlook as [[<- _]|[_ Hlook]]; [done|].
    apply lookup_insert_Some in Hlook as [[_ [=]]|[_ Hlook]].
    by rewrite lookup_empty in Hlook. }
  assert (forall org, PanglaoDB.organism_mapper !! org = Some "Human" -> org = "Hs") as Hhuman.
  { intros org Hlook. unfold PanglaoDB.organism_mapper in Hlook.
    apply lookup_insert_Some in Hlook as [[_ [=]]|[_ Hlook]].
    apply lookup_insert_Some in Hlook as [[<- _]|[_ Hlook]]; [done|].
    by rewrite lookup_empty in Hlook. }
  rewrite (line_loop_entries "Mm" "Mouse" eq_refl Hmouse _ _ _ Hrun).
  rewrite (line_loop_entries "Hs" "Human" eq_refl Hhuman _ _ _ Hrun).
  by rewrite !lookup_empty.
Qed.

(** The line "Mm Hs<TAB>Gene1<TAB>CellA" gives a mouse row and a human row. *)
Lemma panglao_table_by_organism_witness :
  PanglaoDB.prepare_data (fun tax _ => tax) (fun _ _ => "")
    (tsv ["Mm Hs"; "Gene1"; "CellA"])
  = Ok [("Mouse", "Gene1", "CellA", "PanglaoDB", "https://panglaodb.se/", "10090", "");
        ("Human", "Gene1", "CellA", "PanglaoDB", "https://panglaodb.se/", "9606", "")]
  /\ [("Mouse", "Gene1", "CellA", "PanglaoDB", "https://panglaodb.se/", "10090", "");
      ("Human", "Gene1", "CellA", "PanglaoDB", "https://panglaodb.se/", "9606", "")]
     = (panglao_row (fun tax _ => tax) (fun _ _ => "") "10090"
        <$> panglao_entries "Mm" "Mouse"
              (split LF (PanglaoDB.handle_response (tsv ["Mm Hs"; "Gene1"; "CellA"]))))
       ++ (panglao_row (fun tax _ => tax) (fun _ _ => "") "9606"
           <$> panglao_entries "Hs" "Human"
                 (split LF (PanglaoDB.handle_response (tsv ["Mm Hs"; "Gene1"; "CellA"])))).
Proof.
  assert (PanglaoDB.prepare_data (fun tax _ => tax) (fun _ _ => "")
            (tsv ["Mm Hs"; "Gene1"; "CellA"])
          = Ok [("Mouse", "Gene1", "CellA", "PanglaoDB", "https://panglaodb.se/", "10090", "");
                ("Human", "Gene1", "CellA", "PanglaoDB", "https://panglaodb.se/", "9606", "")])
    as Hrun by (vm_compute; reflexivity).
  split; [exact Hrun|].
  exact (panglao_table_by_organism _ _ _ _ Hrun).
Defined.

Section PanglaoRuns.
Import PanglaoDB.

Lemma org_loop_long (columns orgs : list string) :
  3 <= length columns ->
  forall genes, exists genes', for_each (org_step columns) orgs genes = Ok genes'.
Proof.
  intros Hlen. destruct columns as [|orgs0 [|name [|cell more]]]; cbn in Hlen; try lia.
  induction orgs as [|org orgs IH]; intros genes; cbn [for_each]; [eauto|].
  unfold org_step at 1. destruct (organism_mapper !! org); cbn; apply IH.
Qed.

Lemma org_loop_unrecognised (columns orgs : list string)
    (genes : gmap string (list gene_entry)) :
  Forall (fun org => organism_mapper !! org = None) orgs ->
  for_each (org_step columns) orgs genes = Ok genes.
Proof.
  induction 1 as [|org orgs Horg _ IH]; cbn [for_each]; [done|].
  unfold org_step at 1. by rewrite Horg.
Qed.

Lemma org_loop_short (columns orgs : list string) :
  length columns < 3 ->
  Exists (fun org => is_Some (organism_mapper !! org)) orgs ->
  forall genes, for_each (org_step columns) orgs genes = Raise IndexError.
Proof.
  intros Hlen. induction 1 as [org orgs [organism Horg]|org orgs _ IH]; intros genes;
    cbn [for_each]; unfold org_step at 1.
  - rewrite Horg. destruct columns as [|orgs0 [|name [|cell more]]]; cbn in Hlen; try lia; done.
  - destruct (organism_mapper !! org).
    + destruct columns as [|orgs0 [|name [|cell more]]]; cbn in Hlen; try lia; done.
    + apply IH.
Qed.

Lemma line_step_passes (line : string) (genes : gmap string (list gene_entry)) :
  (panglao_line_passes line /\ exists genes', line_step genes line = Ok genes')
  \/ (~ panglao_line_passes line /\ line_step genes line = Raise IndexError).
Proof.
  unfold panglao_line_passes, line_step.
  destruct (split_nonempty TAB line) as (orgs & columns & ->).
  cbn [index lookup list_lookup bind species head default].
  destruct (decide (3 <= length (orgs :: columns))) as [Hlong|Hshort].
  - left. split; [by left|]. by apply org_loop_long.
  - destruct (decide (Forall (fun org => organism_mapper !! org = None) (split " " orgs)))
      as [Hnone|Hsome].
    + left. split; [by right|]. rewrite org_loop_unrecognised by done. eauto.
    + right. split; [by intros [?|?]|]. apply org_loop_short; [lia|].
      apply not_Forall_Exists in Hsome; [|apply _].
      eapply Exists_impl; [exact Hsome|]. intros org Horg. cbn in Horg.
      by destruct (organism_mapper !! org).
Qed.

Lemma line_loop_passes (lines : list string) :
  forall genes,
    (exists genes', for_each line_step lines genes = Ok genes')
    <-> Forall panglao_line_passes lines.
Proof.
  induction lines as [|line lines IH]; intros genes; cbn [for_each].
  - split; [constructor|eauto].
  - destruct (line_step_passes line genes) as [[Hpass [genes1 ->]]|[Hfail ->]].
    + rewrite IH. split; [by constructor|]. by intros [_ ?]%Forall_cons.
    + split; [by intros [? ?]|]. by intros [? _]%Forall_cons.
Qed.

End PanglaoRuns.

(** The PanglaoDB build returns a table exactly when every line of the
    stripped feed has at least three tab-separated fields or has no
    recognised organism code in its first field; a line with a recognised
    code and fewer than three fields ends the build with [IndexError]. *)
Theorem panglao_build_completes_iff
    (match_gene gene_function : string -> string -> string) (response : string) :
  ((exists table, PanglaoDB.prepare_data match_gene gene_function response = Ok table)
   <-> Forall panglao_line_passes (split LF (PanglaoDB.handle_response response)))
  /\ (~ Forall panglao_line_passes (split LF (PanglaoDB.handle_response response))
      -> PanglaoDB.prepare_data match_gene gene_function response = Raise IndexError).
Proof.
  unfold PanglaoDB.prepare_data. rewrite <- (line_loop_passes _ ∅).
  destruct (for_each PanglaoDB.line_step _ ∅) as [genes|[]]; cbn [bind].
  - split; [split; eauto|]. intros Hnot. destruct Hnot. eauto.
  - split; [split; intros [? [=]]|done].
Qed.

(** A blank line in the middle of the feed passes; a line with the code
    Hs and nothing else does not. *)
Example panglao_build_completes_iff_examples :
  PanglaoDB.prepare_data (fun tax _ => tax) (fun _ _ => "")
    (text [tsv ["Mm"; "Gene1"; "CellA"]; ""; tsv ["Hs"; "Gene2"; "CellB"]])
  = Ok [("Mouse", "Gene1", "CellA", "PanglaoDB", "https://panglaodb.se/", "10090", "");
        ("Human", "Gene2", "CellB", "PanglaoDB", "https://panglaodb.se/", "9606", "")]
  /\ PanglaoDB.prepare_data (fun tax _ => tax) (fun _ _ => "")
       (text [tsv ["Mm"; "Gene1"; "CellA"]; "Hs"])
     = Raise IndexError.
Proof. split; vm_compute; reflexivity. Qed.

(** ** The CellMarker table *)

Section CellMarkerRuns.
Import CellMarkerDB CellMarkerPairs.

Lemma for_each_raises {S A : Type} (body : S -> A -> result S) (items : list A) (x : A) :
  x ∈ items -> (forall st, body st x = Raise IndexError) ->
  forall st, for_each body items st = Raise IndexError.
Proof.
  intros Hin Hraise. induction items as [|item items IH]; [by apply elem_of_nil in Hin|].
  intros st. cbn [for_each]. apply elem_of_cons in Hin as [<-|Hin].
  - by rewrite Hraise.
  - destruct (body st item) as [st'|[]]; [by apply IH|done].
Qed.


Lemma pair_loop_returns (organism : string) (columns : list string)
    (pairs : list (string * string)) :
  14 <= length columns ->
  forall st, exists st', for_each (pair_step organism columns) pairs st = Ok st'.
Proof.
  intros Hlen.
  destruct (lookup_lt_is_Some_2 columns cell_name_col) as [cell Hcell];
    [unfold cell_name_col; lia|].
  destruct (lookup_lt_is_Some_2 columns pubmed_id_col) as [pubmed Hpub];
    [unfold pubmed_id_col; lia|].
  induction pairs as [|[symbol entrez_id] pairs IH]; intros st; cbn [for_each]; [eauto|].
  unfold pair_step at 1. rewrite (index_Ok _ _ _ Hcell), (index_Ok _ _ _ Hpub). cbn [bind].
  destruct (int_parses entrez_id); cbn [negb]; [|apply IH].
  destruct (bool_decide ((cell, entrez_id) ∈ unique_rows st)); apply IH.
Qed.

Lemma line_step_other_organism (line : string) (st : state) :
  column (split TAB line) species_col ∉ organisms -> line_step st line = Ok st.
Proof.
  unfold line_step, column.
  destruct (split_nonempty TAB line) as (organism & columns & ->).
  cbn [index lookup list_lookup bind species_col default]. intros Hother.
  by rewrite bool_decide_false.
Qed.

Lemma line_step_returns (line : string) (st : state) :
  (column (split TAB line) species_col ∈ organisms -> 14 <= length (split TAB line)) ->
  exists st', line_step st line = Ok st'.
Proof.
  intros Hlen.
  destruct (decide (column (split TAB line) species_col ∈ organisms)) as [Horg|Hother];
    [|rewrite line_step_other_organism by done; eauto].
  specialize (Hlen Horg). unfold line_step.
  destruct (lookup_lt_is_Some_2 (split TAB line) species_col) as [organism Hspecies];
    [unfold species_col; lia|].
  destruct (lookup_lt_is_Some_2 (split TAB line) gene_symbol_col) as [symbols Hsym];
    [unfold gene_symbol_col; lia|].
  destruct (lookup_lt_is_Some_2 (split TAB line) entrez_id_col) as [ids Hids];
    [unfold entrez_id_col; lia|].
  rewrite (index_Ok _ _ _ Hspecies), (index_Ok _ _ _ Hsym), (index_Ok _ _ _ Hids).
  cbn [bind]. destruct (bool_decide (organism ∈ organisms)); [|eauto].
  by apply pair_loop_returns.
Qed.

Lemma line_step_short (line : string) (st : state) :
  column (split TAB line) species_col ∈ organisms ->
  length (split TAB line) < 10 ->
  line_step st line = Raise IndexError.
Proof.
  unfold line_step, column.
  destruct (split_nonempty TAB line) as (organism & columns & ->).
  cbn [index lookup list_lookup bind species_col default]. intros Horg Hlen.
  rewrite bool_decide_true by done.
  destruct (decide (length (organism :: columns) <= gene_symbol_col)) as [Hsym|Hsym].
  - by rewrite index_Raise.
  - destruct (lookup_lt_is_Some_2 (organism :: columns) gene_symbol_col) as [symbols ->%index_Ok];
      [lia|].
    cbn [bind]. rewrite index_Raise; [done|]. unfold entrez_id_col. lia.
Qed.

Lemma line_loop_returns (lines : list string) :
  Forall (fun line => column (split TAB line) species_col ∈ organisms
                      -> 14 <= length (split TAB line)) lines ->
  forall st, exists st', for_each line_step lines st = Ok st'.
Proof.
  induction 1 as [|line lines Hline _ IH]; intros st; cbn [for_each]; [eauto|].
  destruct (line_step_returns line st Hline) as [st1 ->]. apply IH.
Qed.



End CellMarkerRuns.



(** An id with a separator (FS) before its digits is no integer, so its
    pair is skipped; a reference with a separator (US) after its digits is
    no integer either, so the URL is a question mark. *)
Example cellmarker_separator_is_no_space :
  CellMarkerDB.prepare_data (fun _ => "")
    (cellmarker_line "Human" "T cell" "CD3E, CD4"
       (String (ascii_of_nat 28) "916, 920")
       ("28775224" +:+ String (ascii_of_nat 31) ""))
  = Ok [("Human", "CD4", "T cell", "28775224" +:+ String (ascii_of_nat 31) "",
         "?", "920", "")].
Proof. vm_compute. reflexivity. Qed.

(** Lines of other organisms play no part in the CellMarker loop: from
    any state, the loop over a feed does what it does over the feed
    without them, however few fields they have. *)
Theorem cellmarker_other_organisms_ignored
    (lines : list string) (st : CellMarkerDB.state) :
  for_each CellMarkerDB.line_step lines st
  = for_each CellMarkerDB.line_step
      (filter (fun line =>
                 CellMarkerPairs.column (split TAB line) CellMarkerDB.species_col
                 ∈ CellMarkerDB.organisms) lines) st.
Proof.
  revert st. induction lines as [|line lines IH]; intros st; [done|].
  destruct (decide (CellMarkerPairs.column (split TAB line) CellMarkerDB.species_col
                    ∈ CellMarkerDB.organisms)) as [Horg|Hother].
  - rewrite filter_cons_True by done. cbn [for_each].
    destruct (CellMarkerDB.line_step st line); [apply IH|done].
  - rewrite filter_cons_False by done. cbn [for_each].
    rewrite line_step_other_organism by done. apply IH.
Qed.

Lemma cellmarker_other_organisms_ignored_example :
  for_each CellMarkerDB.line_step
    [cellmarker_line "Human" "T cell" "CD3E" "916" "28775224"; "Zebrafish"; ""]
    (CellMarkerDB.State ∅ [])
  = for_each CellMarkerDB.line_step
      [cellmarker_line "Human" "T cell" "CD3E" "916" "28775224"]
      (CellMarkerDB.State ∅ []).
Proof. vm_compute. reflexivity. Qed.

(** The CellMarker build returns a table when every line of an organism
    of interest has at least fourteen tab-separated fields, and ends with
    [IndexError] when some line of an organism of interest has fewer than
    ten. *)
Theorem cellmarker_build_by_line_length
    (gene_description : string -> string) (response : string) :
  (Forall (fun line =>
             CellMarkerPairs.column (split TAB line) CellMarkerDB.species_col
             ∈ CellMarkerDB.organisms
             -> 14 <= length (split TAB line))
          (split LF (CellMarkerDB.handle_response response))
   -> exists table, CellMarkerDB.prepare_data gene_description response = Ok table)
  /\ (forall line,
        line ∈ split LF (CellMarkerDB.handle_response response) ->
        CellMarkerPairs.column (split TAB line) CellMarkerDB.species_col
        ∈ CellMarkerDB.organisms ->
        length (split TAB line) < 10 ->
        CellMarkerDB.prepare_data gene_description response = Raise IndexError).
Proof.
  unfold CellMarkerDB.prepare_data. split.
  - intros Hall.
    destruct (line_loop_returns _ Hall (CellMarkerDB.State ∅ [])) as [st' ->]. cbn. eauto.
  - intros line Hin Horg Hshort.
    rewrite (for_each_raises CellMarkerDB.line_step _ line Hin); [done|].
    intros st. by apply line_step_short.
Qed.

Lemma cellmarker_build_by_line_length_witness :
  CellMarkerDB.prepare_data (fun _ => "")
    (text [cellmarker_line "Human" "T cell" "CD3E" "916" "28775224";
           tsv ["Mouse"; "Blood"; "x"; "Normal"; "Normal cell"; "B cell"]])
  = Raise IndexError
  /\ exists table, CellMarkerDB.prepare_data (fun _ => "") cellmarker_repeated = Ok table.
Proof.
  split.
  - refine (proj2 (cellmarker_build_by_line_length _ _)
              (tsv ["Mouse"; "Blood"; "x"; "Normal"; "Normal cell"; "B cell"]) _ _ _).
    + refine (bool_decide_unpack _ _); vm_compute; exact I.
    + refine (bool_decide_unpack _ _); vm_compute; exact I.
    + vm_compute. lia.
  - refine (proj1 (cellmarker_build_by_line_length _ _) _).
    vm_compute. repeat constructor; intros _; lia.
Defined.

(** ** The partition of the gene-info feed *)

Section Partition.
Import GeneInfo.

Variable relevant : gset string.

Lemma info_line_membership (parsed parsed' : gmap string (gset (list string)))
    (line t : string) (info : list string) :
  info_line relevant parsed line = Ok parsed' ->
  info ∈ default ∅ (parsed' !! t)
  <-> info ∈ default ∅ (parsed !! t)
      \/ (t ∈ relevant /\ info !! 0 = Some t /\ split TAB (strip line) = info).
Proof.
  unfold info_line. destruct (split_nonempty TAB (strip line)) as (tax & fields & ->).
  cbn [index lookup list_lookup bind tax_id]. case_bool_decide as Hrel; intros [= <-].
  - destruct (decide (t = tax)) as [->|Hne].
    + rewrite lookup_insert_eq. cbn [default from_option id].
      rewrite elem_of_union, elem_of_singleton. split.
      * intros [Hold | ->]; [by left|]. by right.
      * intros [Hold|(_ & _ & <-)]; [by left|by right].
    + rewrite lookup_insert_ne by done. split; [by left|].
      intros [Hold|(_ & Hhead & <-)]; [done|]. cbn in Hhead. congruence.
  - split; [by left|]. intros [Hold|(Hin & Hhead & <-)]; [done|].
    cbn in Hhead. congruence.
Qed.

Lemma info_loop_membership (lines : list string) (t : string) (info : list string) :
  forall parsed parsed',
    for_each (info_line relevant) lines parsed = Ok parsed' ->
    info ∈ default ∅ (parsed' !! t)
    <-> info ∈ default ∅ (parsed !! t)
        \/ (t ∈ relevant /\ info !! 0 = Some t
            /\ exists line, line ∈ lines /\ split TAB (strip line) = info).
Proof.
  induction lines as [|line lines IH]; intros parsed parsed' Hrun; cbn [for_each] in Hrun.
  - injection Hrun as <-. split; [by left|]. intros [?|(_ & _ & line & Hin & _)]; [done|].
    by apply elem_of_nil in Hin.
  - destruct (info_line relevant parsed line) as [parsed1|e] eqn:Hline; [|done].
    rewrite (IH _ _ Hrun), (info_line_membership _ _ _ _ _ Hline).
    split.
    + intros [[Hold|(Hrel & Hhead & Hinfo)]|(Hrel & Hhead & later & Hin & Hinfo)].
      * by left.
      * right. split; [done|]. split; [done|]. exists line. split; [by left|done].
      * right. split; [done|]. split; [done|]. exists later. split; [by right|done].
    + intros [Hold|(Hrel & Hhead & l & [->|Hin]%elem_of_cons & Hinfo)].
      * by left; left.
      * left. right. done.
      * right. split; [done|]. split; [done|]. by exists l.
Qed.

Lemma info_loop_nonempty (lines : list string) :
  forall parsed parsed',
    for_each (info_line relevant) lines parsed = Ok parsed' ->
    (forall t records, parsed !! t = Some records -> records <> ∅) ->
    forall t records, parsed' !! t = Some records -> records <> ∅.
Proof.
  induction lines as [|line lines IH]; intros parsed parsed' Hrun Hfull;
    cbn [for_each] in Hrun.
  - by injection Hrun as <-.
  - destruct (info_line relevant parsed line) as [parsed1|e] eqn:Hline; [|done].
    apply (IH _ _ Hrun). intros t records. unfold info_line in Hline.
    destruct (split_nonempty TAB (strip line)) as (tax & fields & Hinfo).
    rewrite Hinfo in Hline. cbn [index lookup list_lookup bind tax_id] in Hline.
    case_bool_decide; injection Hline as <-; [|apply Hfull].
    intros [[<- <-]|[_ Hold]]%lookup_insert_Some; [set_solver|by eapply Hfull].
Qed.

Lemma info_loop_irrelevant (lines : list string) (parsed : gmap string (gset (list string))) :
  Forall (fun line => forall t, split TAB (strip line) !! 0 = Some t -> t ∉ relevant) lines ->
  for_each (info_line relevant) lines parsed = Ok parsed.
Proof.
  induction 1 as [|line lines Hline _ IH]; cbn [for_each]; [done|].
  unfold info_line at 1. destruct (split_nonempty TAB (strip line)) as (tax & fields & Hinfo).
  rewrite Hinfo in *. cbn [index lookup list_lookup bind tax_id].
  by rewrite bool_decide_false by (by apply Hline).
Qed.

Lemma handle_response_first (response : string) (g' : globals) :
  handle_response response (Globals relevant ∅) = Ok g' ->
  relevant_taxonomy_ids g' = relevant
  /\ for_each (info_line relevant) (tail (readlines response)) ∅ = Ok (gene_info g').
Proof.
  unfold handle_response. cbn [gene_info relevant_taxonomy_ids].
  rewrite map_size_empty. cbn [Nat.eqb negb].
  destruct (for_each _ _ ∅) as [parsed|e]; [|done]. cbn [bind]. by intros [= <-].
Qed.

End Partition.

(** The first parse partitions the feed: a record is in the set of a
    taxonomy id exactly when the id is relevant, it is the record's first
    field, and the record is the fields of some line after the header
    (stripped, split at tabs). *)
Theorem partition_membership
    (relevant : gset string) (response : string) (g' : globals)
    (t : string) (info : list string) :
  handle_response response (Globals relevant ∅) = Ok g' ->
  info ∈ default ∅ (gene_info g' !! t)
  <-> t ∈ relevant /\ info !! 0 = Some t
      /\ exists line, line ∈ tail (readlines response) /\ split TAB (strip line) = info.
Proof.
  intros [_ Hrun]%handle_response_first.
  rewrite (info_loop_membership relevant _ t info _ _ Hrun), lookup_empty.
  split; [|by right]. intros [Hnone|Hsome]; [|done]. by apply not_elem_of_empty in Hnone.
Qed.

Lemma partition_membership_witness :
  handle_response gene_info_feed (Globals {["9606"]} ∅)
  = Ok (Globals {["9606"]}
          {["9606" := {[ split TAB (gene_info_line "9606" "1" "A1BG") ]} ]})
  /\ split TAB (gene_info_line "9606" "1" "A1BG")
     ∈ default ∅
         (({["9606" := {[ split TAB (gene_info_line "9606" "1" "A1BG") ]} ]}
             : gmap string (gset (list string))) !! "9606").
Proof.
  assert (handle_response gene_info_feed (Globals {["9606"]} ∅)
          = Ok (Globals {["9606"]}
                  {["9606" := {[ split TAB (gene_info_line "9606" "1" "A1BG") ]} ]}))
    as Hrun by (vm_compute; reflexivity).
  split; [exact Hrun|].
  apply (proj2 (partition_membership _ _ _ "9606" _ Hrun)).
  split; [set_solver|]. split; [reflexivity|].
  exists (gene_info_line "9606" "1" "A1BG" +:+ LF). split; [|vm_compute; reflexivity].
  refine (bool_decide_unpack _ _). vm_compute. exact I.
Defined.

(** The mapping of the first parse is empty exactly when no line after
    the header begins with a relevant taxonomy id. The guard of
    [handle_response] tests the size of the mapping, so after such a feed
    the next call parses its own response as a first call does. *)
Theorem partition_empty_iff
    (relevant : gset string) (response : string) (g' : globals) :
  handle_response response (Globals relevant ∅) = Ok g' ->
  (size (gene_info g') = 0
   <-> forall line t,
         line ∈ tail (readlines response) ->
         split TAB (strip line) !! 0 = Some t -> t ∉ relevant)
  /\ (size (gene_info g') = 0 ->
      forall response',
        handle_response response' g' = handle_response response' (Globals relevant ∅)).
Proof.
  intros Hfirst. pose proof (handle_response_first _ _ _ Hfirst) as [Hrel Hrun].
  assert (size (gene_info g') = 0 -> g' = Globals relevant ∅) as Hempty.
  { intros Hparsed%map_size_empty_inv. destruct g' as [ids parsed]. cbn in *. by subst. }
  split; [split|].
  - intros Hsize line t Hin Hhead Ht.
    assert (split TAB (strip line) ∈ default ∅ (gene_info g' !! t)) as Hrec.
    { apply (partition_membership _ _ _ _ _ Hfirst). eauto. }
    rewrite (Hempty Hsize) in Hrec. cbn in Hrec. rewrite lookup_empty in Hrec.
    by apply not_elem_of_empty in Hrec.
  - intros Hnone. rewrite info_loop_irrelevant in Hrun.
    + injection Hrun as <-. apply map_size_empty.
    + apply Forall_forall. intros line Hin t. by apply Hnone.
  - intros Hsize response'. by rewrite (Hempty Hsize).
Qed.

Lemma partition_empty_iff_witness :
  handle_response gene_info_feed (Globals {["10090"]} ∅) = Ok (Globals {["10090"]} ∅)
  /\ forall line t,
       line ∈ tail (readlines gene_info_feed) ->
       split TAB (strip line) !! 0 = Some t -> t ∉ ({["10090"]} : gset string).
Proof.
  assert (handle_response gene_info_feed (Globals {["10090"]} ∅)
          = Ok (Globals {["10090"]} ∅)) as Hrun by (vm_compute; reflexivity).
  split; [exact Hrun|].
  apply (proj1 (proj1 (partition_empty_iff _ _ _ Hrun))). reflexivity.
Defined.

Section SpeciesGenes.
Import GeneInfo.

Lemma species_genes_fold (parsed : gmap string (gset (list string)))
    (ids : list string) (info : list string) :
  forall genes : gset (list string),
    info ∈ foldl (fun genes tax => genes ∪ default ∅ (parsed !! tax)) genes ids
    <-> info ∈ genes \/ exists t, t ∈ ids /\ info ∈ default ∅ (parsed !! t).
Proof.
  induction ids as [|tax ids IH]; intros genes; cbn [foldl].
  - split; [by left|]. intros [?|(t & Hin & _)]; [done|]. by apply elem_of_nil in Hin.
  - rewrite IH, elem_of_union. split.
    + intros [[Hold|Hnew]|(t & Hin & Ht)]; [by left| |].
      * right. exists tax. split; [by left|done].
      * right. exists t. split; [by right|done].
    + intros [Hold|(t & [->|Hin]%elem_of_cons & Ht)]; [by left; left|by left; right|].
      right. by exists t.
Qed.

Lemma load_taxonomies_fold (get_all_strains : string -> list string)
    (common_taxids : list string) (t : string) :
  forall ids : gset string,
    t ∈ foldl (fun ids tax => ids ∪ {[tax]} ∪ list_to_set (get_all_strains tax))
          ids common_taxids
    <-> t ∈ ids \/ t ∈ common_taxids
        \/ exists tax, tax ∈ common_taxids /\ t ∈ get_all_strains tax.
Proof.
  induction common_taxids as [|tax taxids IH]; intros ids; cbn [foldl].
  - split; [by left|]. intros [?|[Hin|(tax & Hin & _)]]; [done| |];
      by apply elem_of_nil in Hin.
  - rewrite IH, !elem_of_union, elem_of_singleton, elem_of_list_to_set. split.
    + intros [[[Hold | ->]|Hstrain]|[Hin|(tax' & Hin & Hstrain)]].
      * by left.
      * right. left. by left.
      * right. right. exists tax. split; [by left|done].
      * right. left. by right.
      * right. right. exists tax'. split; [by right|done].
    + intros [Hold|[[->|Hin]%elem_of_cons|(tax' & [->|Hin]%elem_of_cons & Hstrain)]].
      * by left; left; left.
      * by left; left; right.
      * by right; left.
      * by left; right.
      * right. right. by exists tax'.
Qed.

End SpeciesGenes.

(** The records gathered for a species after the first parse are the
    records of the feed whose taxonomy id is the species' id or one of its
    strains and is relevant; an id with no records in the feed adds
    nothing and is no error. *)
Theorem species_genes_of_feed
    (relevant : gset string) (response : string) (g' : globals)
    (taxonomy_id : string) (strains : list string) (info : list string) :
  handle_response response (Globals relevant ∅) = Ok g' ->
  info ∈ species_genes taxonomy_id strains (gene_info g')
  <-> exists t,
        t ∈ taxonomy_id :: strains /\ t ∈ relevant /\ info !! 0 = Some t
        /\ exists line, line ∈ tail (readlines response) /\ split TAB (strip line) = info.
Proof.
  intros Hfirst. unfold species_genes. rewrite species_genes_fold. split.
  - intros [Hnone|(t & Hin & Hrec)]; [by apply not_elem_of_empty in Hnone|].
    apply (partition_membership _ _ _ _ _ Hfirst) in Hrec. by exists t.
  - intros (t & Hin & Hrec). right. exists t. split; [done|].
    by apply (partition_membership _ _ _ _ _ Hfirst).
Qed.

(** A feed with a gene of a species (9606), a gene of one of its strains
    (63221) and a gene of another species. *)
Lemma species_genes_of_feed_witness :
  exists g',
    handle_response
      (text [tsv ["#tax_id"; "GeneID"; "Symbol"]; gene_info_line "9606" "1" "A1BG";
             gene_info_line "10090" "2" "other"; gene_info_line "63221" "3" "strain"; ""])
      (Globals {["9606"; "63221"; "10090"]} ∅) = Ok g'
    /\ species_genes "9606" ["63221"; "741158"] (gene_info g')
       = {[ split TAB (gene_info_line "9606" "1" "A1BG");
            split TAB (gene_info_line "63221" "3" "strain") ]}
    /\ split TAB (gene_info_line "63221" "3" "strain")
       ∈ species_genes "9606" ["63221"; "741158"] (gene_info g').
Proof.
  destruct (handle_response _ (Globals {["9606"; "63221"; "10090"]} ∅)) as [g'|e] eqn:Hrun;
    [|vm_compute in Hrun; discriminate].
  exists g'. split; [done|]. split.
  - vm_compute in Hrun. injection Hrun as <-. vm_compute. reflexivity.
  - apply (proj2 (species_genes_of_feed _ _ _ "9606" ["63221"; "741158"] _ Hrun)).
    exists "63221". split; [set_solver|]. split; [set_solver|]. split; [reflexivity|].
    exists (gene_info_line "63221" "3" "strain" +:+ LF). split; [|vm_compute; reflexivity].
    refine (bool_decide_unpack _ _). vm_compute. exact I.
Defined.

(** The relevant ids that [__main__] collects are the common ids and all
    their strains, and nothing else: every id a species' build asks for is
    relevant. *)
Theorem load_taxonomies_membership
    (common_taxids : list string) (get_all_strains : string -> list string) (t : string) :
  t ∈ load_taxonomies common_taxids get_all_strains ∅
  <-> t ∈ common_taxids
      \/ exists tax, tax ∈ common_taxids /\ t ∈ get_all_strains tax.
Proof.
  unfold load_taxonomies. rewrite load_taxonomies_fold. split; [|by right].
  intros [Hnone|Hsome]; [|done]. by apply not_elem_of_empty in Hnone.
Qed.

(** The values for [INSERT] are built exactly for the records that have at
    least fifteen fields; a shorter record raises [IndexError]. *)
Theorem insert_values_returns_iff
    (species_name : string) (synonyms_json db_refs_json : string -> string)
    (gene : list string) :
  ((exists r, insert_values species_name synonyms_json db_refs_json gene = Ok r)
   <-> 15 <= length gene)
  /\ (length gene < 15 ->
      insert_values species_name synonyms_json db_refs_json gene = Raise IndexError).
Proof.
  assert (length gene < 15 ->
          insert_values species_name synonyms_json db_refs_json gene = Raise IndexError)
    as Hshort.
  { intros Hlen. do 15 (destruct gene as [|? gene]; [reflexivity|]). cbn in Hlen. lia. }
  split; [split|done].
  - intros [r Hrun]. destruct (decide (15 <= length gene)) as [|Hlen]; [done|].
    rewrite Hshort in Hrun by lia. done.
  - intros Hlen. do 15 (destruct gene as [|? gene]; [cbn in Hlen; lia|]). by eexists.
Qed.

(** The first parse depends on the lines after the header as a set only:
    two feeds with the same lines, in any order and any number of copies,
    give the same mapping. *)
Theorem partition_of_line_set
    (relevant : gset string) (response1 response2 : string) (g1 g2 : globals) :
  (forall line, line ∈ tail (readlines response1) <-> line ∈ tail (readlines response2)) ->
  handle_response response1 (Globals relevant ∅) = Ok g1 ->
  handle_response response2 (Globals relevant ∅) = Ok g2 ->
  g1 = g2.
Proof.
  intros Hlines Hfirst1 Hfirst2.
  pose proof (handle_response_first _ _ _ Hfirst1) as [Hrel1 Hrun1].
  pose proof (handle_response_first _ _ _ Hfirst2) as [Hrel2 Hrun2].
  assert (forall t records, (∅ : gmap string (gset (list string))) !! t = Some records
                            -> records <> ∅) as Hnone by (intros t records; by rewrite lookup_empty).
  pose proof (info_loop_nonempty _ _ _ _ Hrun1 Hnone) as Hfull1.
  pose proof (info_loop_nonempty _ _ _ _ Hrun2 Hnone) as Hfull2.
  assert (forall t, default ∅ (gene_info g1 !! t) = default ∅ (gene_info g2 !! t)) as Hsets.
  { intros t. apply set_eq. intros info.
    rewrite (partition_membership _ _ _ _ _ Hfirst1), (partition_membership _ _ _ _ _ Hfirst2).
    by setoid_rewrite Hlines. }
  destruct g1 as [ids1 parsed1], g2 as [ids2 parsed2]. cbn in *. subst. f_equal.
  apply map_eq. intros t. specialize (Hsets t). specialize (Hfull1 t). specialize (Hfull2 t).
  destruct (parsed1 !! t) as [records1|], (parsed2 !! t) as [records2|]; cbn in Hsets.
  - by subst.
  - by destruct (Hfull1 _ eq_refl).
  - by destruct (Hfull2 _ eq_refl).
  - done.
Qed.

Lemma partition_of_line_set_witness :
  handle_response
    (text [tsv ["#a"]; gene_info_line "9606" "1" "A1BG"; gene_info_line "9606" "10" "NAT2"; ""])
    (Globals {["9606"]} ∅)
  = handle_response
      (text [tsv ["#b"]; gene_info_line "9606" "10" "NAT2"; gene_info_line "9606" "1" "A1BG";
             gene_info_line "9606" "10" "NAT2"; ""])
      (Globals {["9606"]} ∅).
Proof.
  destruct (handle_response
              (text [tsv ["#a"]; gene_info_line "9606" "1" "A1BG";
                     gene_info_line "9606" "10" "NAT2"; ""])
              (Globals {["9606"]} ∅)) as [g1|e1] eqn:Hrun1;
    [|vm_compute in Hrun1; discriminate].
  destruct (handle_response
              (text [tsv ["#b"]; gene_info_line "9606" "10" "NAT2";
                     gene_info_line "9606" "1" "A1BG"; gene_info_line "9606" "10" "NAT2"; ""])
              (Globals {["9606"]} ∅)) as [g2|e2] eqn:Hrun2;
    [|vm_compute in Hrun2; discriminate].
  f_equal. refine (partition_of_line_set _ _ _ _ _ _ Hrun1 Hrun2).
  assert (tail (readlines (text [tsv ["#a"]; gene_info_line "9606" "1" "A1BG";
                                 gene_info_line "9606" "10" "NAT2"; ""]))
          = [gene_info_line "9606" "1" "A1BG" +:+ LF;
             gene_info_line "9606" "10" "NAT2" +:+ LF]) as -> by (vm_compute; reflexivity).
  assert (tail (readlines (text [tsv ["#b"]; gene_info_line "9606" "10" "NAT2";
                                 gene_info_line "9606" "1" "A1BG";
                                 gene_info_line "9606" "10" "NAT2"; ""]))
          = [gene_info_line "9606" "10" "NAT2" +:+ LF;
             gene_info_line "9606" "1" "A1BG" +:+ LF;
             gene_info_line "9606" "10" "NAT2" +:+ LF]) as -> by (vm_compute; reflexivity).
  intros line. rewrite !elem_of_cons, !elem_of_nil. tauto.
Defined.

(** ** The info file and the packaging *)

Section InfoFile.
Import RemoteResource.

Lemma getitem_setitem_eq (key : string) (v : value) (d : list (string * value)) :
  getitem key (setitem key v d) = Some v.
Proof.
  induction d as [|[key' v'] d IH]; cbn [setitem getitem].
  - by rewrite bool_decide_true.
  - case_bool_decide as Hkey; cbn [getitem].
    + by rewrite bool_decide_true.
    + by rewrite bool_decide_false.
Qed.

Lemma getitem_setitem_ne (key key' : string) (v : value) (d : list (string * value)) :
  key <> key' -> getitem key' (setitem key v d) = getitem key' d.
Proof.
  intros Hne. induction d as [|[key0 v0] d IH]; cbn [setitem getitem].
  - by rewrite bool_decide_false.
  - case_bool_decide as Hkey; cbn [getitem]; [|by rewrite IH].
    subst. by rewrite !bool_decide_false.
Qed.

Lemma setitem_keys (key : string) (v : value) (d : list (string * value)) :
  d.*1 `prefix_of` (setitem key v d).*1
  /\ (NoDup d.*1 -> NoDup (setitem key v d).*1)
  /\ (forall key', key' ∈ (setitem key v d).*1 <-> key' = key \/ key' ∈ d.*1).
Proof.
  induction d as [|[key0 v0] d (IHpre & IHdup & IHin)]; cbn [setitem].
  - split; [apply prefix_nil|]. split; [intros _; apply NoDup_singleton|].
    intros key'. cbn. rewrite elem_of_cons, elem_of_nil. tauto.
  - case_bool_decide as Hkey; cbn [fmap list_fmap fst].
    + subst. split; [done|]. split; [done|]. intros key'. rewrite elem_of_cons. tauto.
    + split; [by apply prefix_cons|]. split.
      * intros [Hnotin Hdup]%NoDup_cons. apply NoDup_cons. split; [|by apply IHdup].
        rewrite IHin. intros [->|Hin]; done.
      * intros key'. rewrite !elem_of_cons, IHin. tauto.
Qed.

Lemma update_keys (kwargs d : list (string * value)) :
  d.*1 `prefix_of` (update d kwargs).*1
  /\ (NoDup d.*1 -> NoDup (update d kwargs).*1).
Proof.
  unfold update. revert d. induction kwargs as [|[key v] kwargs IH]; intros d; cbn [foldl].
  - done.
  - destruct (setitem_keys key v d) as (Hpre & Hdup & _).
    destruct (IH (setitem key v d)) as [Hpre' Hdup']. cbn [fst snd] in *.
    split; [by etrans|]. intros Hd. by apply Hdup', Hdup.
Qed.

Lemma update_getitem_other (key : string) (kwargs : list (string * value)) :
  key ∉ kwargs.*1 -> forall d, getitem key (update d kwargs) = getitem key d.
Proof.
  unfold update. induction kwargs as [|[key' v'] kwargs IH]; intros Hkey d; cbn [foldl];
    [done|].
  cbn in Hkey. apply not_elem_of_cons in Hkey as [Hne Hkey].
  rewrite (IH Hkey). by apply getitem_setitem_ne.
Qed.

Lemma append_inj (s t1 t2 : string) : s +:+ t1 = s +:+ t2 -> t1 = t2.
Proof.
  induction s as [|c s IH]; [done|]. rewrite !append_String. intros [= Heq]. by apply IH.
Qed.

Lemma append_ne_self (s t : string) : t <> EmptyString -> s +:+ t <> s.
Proof.
  intros Ht Heq. rewrite <- (append_empty s) in Heq at 2. by apply append_inj in Heq.
Qed.

End InfoFile.

(** The info dictionary always has [source] = 'server_file', [size] = the
    size of the file and [datetime] = the date of the run, whatever the
    keyword arguments say about these keys; the keys of the schema come
    first, in the order of the schema, a key is never repeated, and a
    keyword argument with any other key, given once, is found under its
    key. *)
Theorem info_file_fields
    (kwargs : list (string * RemoteResource.value)) (today : string) (st_size : nat) :
  RemoteResource.getitem "source" (RemoteResource.create_info_file kwargs today st_size)
    = Some (RemoteResource.VStr "server_file")
  /\ RemoteResource.getitem "size" (RemoteResource.create_info_file kwargs today st_size)
     = Some (RemoteResource.VInt st_size)
  /\ RemoteResource.getitem "datetime" (RemoteResource.create_info_file kwargs today st_size)
     = Some (RemoteResource.VStr today)
  /\ RemoteResource.info_file_schema.*1
     `prefix_of` (RemoteResource.create_info_file kwargs today st_size).*1
  /\ NoDup (RemoteResource.create_info_file kwargs today st_size).*1
  /\ (forall pre post key v,
        kwargs = pre ++ (key, v) :: post ->
        key ∉ post.*1 ->
        key ∉ ["source"; "size"; "datetime"] ->
        RemoteResource.getitem key (RemoteResource.create_info_file kwargs today st_size)
        = Some v).
Proof.
  unfold RemoteResource.create_info_file.
  destruct (update_keys kwargs RemoteResource.info_file_schema) as [Hpre Hdup].
  pose (d0 := RemoteResource.update RemoteResource.info_file_schema kwargs).
  pose (d1 := RemoteResource.setitem "datetime" (RemoteResource.VStr today) d0).
  pose (d2 := RemoteResource.setitem "size" (RemoteResource.VInt st_size) d1).
  destruct (setitem_keys "datetime" (RemoteResource.VStr today) d0) as (Hpre1 & Hdup1 & _).
  destruct (setitem_keys "size" (RemoteResource.VInt st_size) d1) as (Hpre2 & Hdup2 & _).
  destruct (setitem_keys "source" (RemoteResource.VStr "server_file") d2)
    as (Hpre3 & Hdup3 & _).
  split; [apply getitem_setitem_eq|].
  split; [rewrite (getitem_setitem_ne "source" "size") by done; apply getitem_setitem_eq|].
  split; [rewrite (getitem_setitem_ne "source" "datetime"),
            (getitem_setitem_ne "size" "datetime") by done; apply getitem_setitem_eq|].
  split; [exact (transitivity Hpre (transitivity Hpre1 (transitivity Hpre2 Hpre3)))|].
  split; [apply Hdup3, Hdup2, Hdup1, Hdup; vm_compute; repeat constructor; set_solver|].
  intros pre post key v -> Hlast Hkey.
  rewrite (getitem_setitem_ne "source" key), (getitem_setitem_ne "size" key),
    (getitem_setitem_ne "datetime" key) by set_solver.
  unfold RemoteResource.update. rewrite foldl_app. cbn [foldl fst snd].
  rewrite (update_getitem_other key post Hlast). apply getitem_setitem_eq.
Qed.

Lemma info_file_fields_witness :
  RemoteResource.create_info_file
    [("source", RemoteResource.VStr "mine"); ("title", RemoteResource.VStr "Homolog Genes");
     ("note", RemoteResource.VStr "extra")]
    "2019-05-15 10:00:00.000000" 42
  = [("domain", RemoteResource.VNone); ("filename", RemoteResource.VNone);
     ("source", RemoteResource.VStr "server_file");
     ("title", RemoteResource.VStr "Homolog Genes"); ("tags", RemoteResource.VList []);
     ("size", RemoteResource.VInt 42);
     ("datetime", RemoteResource.VStr "2019-05-15 10:00:00.000000");
     ("uncompressed", RemoteResource.VNone); ("compression", RemoteResource.VNone);
     ("note", RemoteResource.VStr "extra")]
  /\ RemoteResource.getitem "title"
       (RemoteResource.create_info_file
          [("source", RemoteResource.VStr "mine");
           ("title", RemoteResource.VStr "Homolog Genes");
           ("note", RemoteResource.VStr "extra")]
          "2019-05-15 10:00:00.000000" 42)
     = Some (RemoteResource.VStr "Homolog Genes").
Proof.
  split; [vm_compute; reflexivity|].
  refine (proj2 (proj2 (proj2 (proj2 (proj2 (info_file_fields _ _ _)))))
            [("source", RemoteResource.VStr "mine")]
            [("note", RemoteResource.VStr "extra")] "title" _ eq_refl _ _).
  - cbn. rewrite elem_of_cons, elem_of_nil. intros [[=]|[]].
  - rewrite !elem_of_cons, elem_of_nil. intros [[=]|[[=]|[[=]|[]]]].
Defined.

(** Packaging a file that is there replaces it by its compressed bytes,
    leaves no [.temp] file, writes the dumped info dictionary to the
    [.info] file with [size] the compressed size, [uncompressed] the size
    before and [filename] the file's name, and touches no other file;
    when the file is not there nothing is written. *)
Theorem to_serverfile_format_effect
    (gzip_bytes : string -> string)
    (json_dump : list (string * RemoteResource.value) -> string) (today : string)
    (self : RemoteResource.resource) (files : gmap string string) :
  (files !! RemoteResource.file_name self = None ->
   RemoteResource.to_serverfile_format gzip_bytes json_dump today self files = None)
  /\ (forall content,
        files !! RemoteResource.file_name self = Some content ->
        exists files' info,
          RemoteResource.to_serverfile_format gzip_bytes json_dump today self files
          = Some files'
          /\ files' !! RemoteResource.file_name self = Some (gzip_bytes content)
          /\ files' !! (RemoteResource.file_name self +:+ ".temp") = None
          /\ files' !! (RemoteResource.file_name self +:+ ".info") = Some (json_dump info)
          /\ RemoteResource.getitem "size" info
             = Some (RemoteResource.VInt (String.length (gzip_bytes content)))
          /\ RemoteResource.getitem "uncompressed" info
             = Some (RemoteResource.VInt (String.length content))
          /\ RemoteResource.getitem "filename" info
             = Some (RemoteResource.VStr (RemoteResource.file_name self))
          /\ (forall path,
                path ∉ [RemoteResource.file_name self;
                        RemoteResource.file_name self +:+ ".temp";
                        RemoteResource.file_name self +:+ ".info"] ->
                files' !! path = files !! path)).
Proof.
  unfold RemoteResource.to_serverfile_format.
  set (file := RemoteResource.file_name self).
  assert (file +:+ ".temp" <> file) as Htemp by (by apply append_ne_self).
  assert (file +:+ ".info" <> file) as Hinfo by (by apply append_ne_self).
  assert (file +:+ ".info" <> file +:+ ".temp") as Hboth
    by (by intros [=]%append_inj).
  split; [by intros ->|]. intros content ->.
  rewrite lookup_delete_ne, lookup_insert_eq by done.
  rewrite lookup_insert_eq. cbn [from_option].
  eexists _, _. split; [reflexivity|].
  split; [by rewrite lookup_insert_ne, lookup_insert_eq by done|].
  split; [by rewrite lookup_insert_ne, lookup_insert_ne, lookup_delete_eq by done|].
  split; [by rewrite lookup_insert_eq|].
  split; [reflexivity|]. split; [reflexivity|]. split; [reflexivity|].
  intros path Hpath. rewrite !not_elem_of_cons in Hpath.
  destruct Hpath as (Hfile & Hpathtemp & Hpathinfo & _).
  by rewrite lookup_insert_ne, lookup_insert_ne, lookup_delete_ne, lookup_delete_ne,
    lookup_insert_ne by done.
Qed.

(** Packaging [homologene.tab] next to another file, with a compression
    that doubles the content and a dump that writes the [filename] alone. *)
Example to_serverfile_format_example :
  RemoteResource.to_serverfile_format (fun content => content +:+ content)
    (fun info => match RemoteResource.getitem "filename" info with
                 | Some (RemoteResource.VStr name) => name
                 | _ => ""
                 end)
    "2019-05-15 10:00:00.000000"
    (RemoteResource.Resource "homologene" "homologene.tab" "Homolog Genes" ["NCBI"] "gz")
    (<["homologene.tab" := "abc"]> (<["log.txt" := "note"]> ∅))
  = Some (<["homologene.tab.info" := "homologene.tab"]>
            (<["homologene.tab" := "abcabc"]> (<["log.txt" := "note"]> ∅))).
Proof. vm_compute. reflexivity. Qed.
